(** * LA City crime data querier: a model of [query_large_dataset.py]

    The development embeds the class [LACrimeDatQuerier] and [main] of
    [src/lib/query_large_dataset.py]:

    - Python values as decoded from JSON are the inductive type [pyval];
    - exceptions are the error monad [result], a [try]/[except Exception]
      block is a [match] on the result of its body;
    - the HTTP session is explicit state: a stream of replies chosen by the
      environment together with the log of the requests sent so far;
    - the [while] loop of [query_with_pagination] runs on fuel, and is shown
      to return when the page size is positive;
    - the file system is a finite map from paths to file contents, with an
      oracle for I/O faults.

    Console output ([print]) and [time.sleep] are not modelled; a [print]
    inside a [try] block is kept where its argument can raise. *)

From Stdlib Require Import ZArith QArith Ascii String DecimalString List Lia.
From stdpp Require Import base option list gmap sets strings sorting.

Local Open Scope Z_scope.
Set Warnings "-register-all".

(** ** Python values *)

(** A float as far as the program can observe it: a finite double is the
    rational it denotes, the others are [nan], [inf] and [-inf]. *)
Inductive pyfloat : Type :=
| FFinite (q : Q)
| FNan
| FInf (negative : bool).

(** The values [response.json()] can produce.  A [dict] keeps its items in
    insertion order, as Python does; its keys are strings.  A character of a
    [str] is one [ascii] of the Rocq string (the model covers text whose code
    points are below 256). *)
Inductive pyval : Type :=
| PyNone
| PyBool (b : bool)
| PyInt (n : Z)
| PyFloat (f : pyfloat)
| PyStr (s : string)
| PyList (xs : list pyval)
| PyDict (items : list (string * pyval)).

(** ** Exceptions *)

Inductive exn : Type :=
| ConnectionError | HTTPError | JSONDecodeError
| TypeError | ValueError | KeyError | IndexError | AttributeError
| OverflowError | OSError.

Inductive result (A : Type) : Type :=
| Ok (a : A)
| Raise (e : exn).
Arguments Ok {A} a.
Arguments Raise {A} e.

#[global] Instance result_ret : MRet result := fun A a => Ok a.
#[global] Instance result_bind : MBind result := fun A B k m =>
  match m with
  | Ok a => k a
  | Raise e => Raise e
  end.

Definition is_ok {A} (m : result A) : bool :=
  match m with Ok _ => true | Raise _ => false end.

(** ** Builtins *)

(** The two builtins whose text conversions are left to the interpreter:
    [int(s)] on a [str] ([None] when it raises [ValueError]) and [str(v)]. *)
Class Builtins : Type := {
  int_of_str : string -> option Z;
  str_of : pyval -> string
}.

(** [bool(v)]: the truth value tested by [if not v]. *)
Definition py_truthy (v : pyval) : bool :=
  match v with
  | PyNone => false
  | PyBool b => b
  | PyInt n => negb (n =? 0)
  | PyFloat (FFinite q) => negb (Qnum q =? 0)
  | PyFloat _ => true
  | PyStr s => negb (String.length s =? 0)%nat
  | PyList xs => negb (length xs =? 0)%nat
  | PyDict items => negb (length items =? 0)%nat
  end.

(** [len(v)]. *)
Definition py_len (v : pyval) : result Z :=
  match v with
  | PyStr s => Ok (Z.of_nat (String.length s))
  | PyList xs => Ok (Z.of_nat (length xs))
  | PyDict items => Ok (Z.of_nat (length items))
  | _ => Raise TypeError
  end.

(** The items [list.extend(v)] and [for x in v] go through. *)
Definition py_iter (v : pyval) : result (list pyval) :=
  match v with
  | PyStr s =>
      Ok (map (fun c => PyStr (String c EmptyString)) (list_ascii_of_string s))
  | PyList xs => Ok xs
  | PyDict items => Ok (map (fun kv => PyStr (fst kv)) items)
  | _ => Raise TypeError
  end.

(** [dict.get(key)] as an option: the first item with that key. *)
Fixpoint dict_lookup (key : string) (items : list (string * pyval)) : option pyval :=
  match items with
  | [] => None
  | (k, v) :: rest => if String.eqb k key then Some v else dict_lookup key rest
  end.

(** [seq[i]] for an index that may be negative. *)
Definition seq_index {A} (xs : list A) (i : Z) : result A :=
  let n := Z.of_nat (length xs) in
  let j := if i <? 0 then i + n else i in
  if (j <? 0) || (n <=? j) then Raise IndexError
  else match nth_error xs (Z.to_nat j) with
       | Some x => Ok x
       | None => Raise IndexError
       end.

(** [container[key]]. *)
Definition py_getitem (container key : pyval) : result pyval :=
  match container, key with
  | PyList xs, PyInt i => seq_index xs i
  | PyList _, _ => Raise TypeError
  | PyStr s, PyInt i =>
      c ← seq_index (list_ascii_of_string s) i; Ok (PyStr (String c EmptyString))
  | PyStr _, _ => Raise TypeError
  | PyDict items, PyStr k =>
      match dict_lookup k items with
      | Some v => Ok v
      | None => Raise KeyError
      end
  | PyDict _, _ => Raise KeyError
  | _, _ => Raise TypeError
  end.

(** [int(v)]. *)
Definition py_int `{Builtins} (v : pyval) : result Z :=
  match v with
  | PyInt n => Ok n
  | PyBool b => Ok (if b then 1 else 0)
  | PyFloat (FFinite q) => Ok (Z.quot (Qnum q) (Z.pos (Qden q)))
  | PyFloat FNan => Raise ValueError
  | PyFloat (FInf _) => Raise OverflowError
  | PyStr s =>
      match int_of_str s with
      | Some n => Ok n
      | None => Raise ValueError
      end
  | PyNone | PyList _ | PyDict _ => Raise TypeError
  end.

(** ** Query builder *)

(** [build_where_clause]: the districts joined by [', '] inside the
    f-string. *)
Definition build_where_clause (districts : list string) (start_date end_date : string) : string :=
  let district_list := String.concat "', '" districts in
  "rpt_dist_no IN ('" +:+ district_list +:+ "') AND date_occ >= '" +:+ start_date
    +:+ "' AND date_occ <= '" +:+ end_date +:+ "'".


(** ** The HTTP session *)

(** The [params] dictionary of a request, in the order the source writes
    it. *)
Definition params : Type := list (string * pyval).

Record request : Type := {
  req_params : params;
  req_timeout : Z
}.

(** What the environment answers to one [session.get]: the call raises
    (connection error, timeout), or a response arrives with a status code
    and a body; [body] is what [response.json()] decodes, [None] when the
    body is not JSON. *)
Inductive http_outcome : Type :=
| TransportError
| HttpResponse (status : Z) (body : option pyval).

Record response : Type := {
  status_code : Z;
  json_body : option pyval
}.

(** The session: the [n]-th request of the run is answered by [replies n];
    [sent] logs the requests in the order they were issued. *)
Record session : Type := {
  replies : nat -> http_outcome;
  sent : list request
}.

(** The outcome as [session.get] delivers it: an exception or a response
    object. *)
Definition result_of_outcome (o : http_outcome) : result response :=
  match o with
  | TransportError => Raise ConnectionError
  | HttpResponse st b => Ok {| status_code := st; json_body := b |}
  end.

Definition log_request (s : session) (r : request) : session :=
  {| replies := replies s; sent := sent s ++ [r] |}.

Definition session_get (s : session) (p : params) (timeout : Z) : result response * session :=
  (result_of_outcome (replies s (length (sent s))),
   log_request s {| req_params := p; req_timeout := timeout |}).

(** [Response.raise_for_status] of the requests library: a 4xx or 5xx
    status raises [HTTPError], every other status passes. *)
Definition raise_for_status (r : response) : result unit :=
  if (400 <=? status_code r) && (status_code r <? 600) then Raise HTTPError else Ok tt.

Definition response_json (r : response) : result pyval :=
  match json_body r with
  | Some v => Ok v
  | None => Raise JSONDecodeError
  end.

(** ** Fetcher *)

Section Fetcher.
Context `{Builtins}.

(** [int(data[0]['count'])]. *)
Definition count_in_body (data : pyval) : result Z :=
  first ← py_getitem data (PyInt 0);
  count ← py_getitem first (PyStr "count");
  py_int count.

(** The body of the [try] block of [get_total_count], given the outcome of
    [session.get]. *)
Definition count_of_response (got : result response) : result Z :=
  response ← got;
  raise_for_status response;;
  data ← response_json response;
  count_in_body data.

Definition count_params (where_clause : string) : params :=
  [("$select", PyStr "count(*)"); ("$where", PyStr where_clause)].

Definition get_total_count (where_clause : string) (s : session) : Z * session :=
  let '(got, s') := session_get s (count_params where_clause) 30 in
  match count_of_response got with
  | Ok n => (n, s')
  | Raise _ => (0, s')
  end.

(** The local variables of the pagination loop together with the
    session. *)
Record loop_state : Type := {
  all_records : list pyval;
  offset : Z;
  page : Z;
  sess : session
}.

Inductive loop_ctl : Type := Continue | Break.

Definition page_params (where_clause : string) (limit_per_page offset : Z) : params :=
  [("$where", PyStr where_clause); ("$order", PyStr "date_occ DESC");
   ("$limit", PyInt limit_per_page); ("$offset", PyInt offset)].

(** What one page request leads to inside the [try] block.  The [print] of
    [len(page_data)] after the [extend] cannot raise: every value that
    [py_iter] accepts has a length (lemma [py_iter_has_len]). *)
Inductive page_verdict : Type :=
| PageAppended (items : list pyval)
| PageEmpty
| PageFailed (e : exn).

Definition page_of_response (got : result response) : page_verdict :=
  match (response ← got; raise_for_status response;; response_json response) with
  | Raise e => PageFailed e
  | Ok page_data =>
      if negb (py_truthy page_data) then PageEmpty
      else match py_iter page_data with
           | Raise e => PageFailed e
           | Ok items => PageAppended items
           end
  end.

(** One iteration of the [while] body. *)
Definition loop_body (where_clause : string) (limit_per_page : Z) (st : loop_state)
  : loop_ctl * loop_state :=
  let '(got, s') :=
    session_get (sess st) (page_params where_clause limit_per_page (offset st)) 30 in
  match page_of_response got with
  | PageAppended items =>
      (Continue, {| all_records := all_records st ++ items;
                    offset := offset st + limit_per_page;
                    page := page st + 1;
                    sess := s' |})
  | PageEmpty | PageFailed _ =>
      (Break, {| all_records := all_records st; offset := offset st;
                 page := page st; sess := s' |})
  end.

(** [while offset < total_count: ...]; [None] when the fuel runs out before
    the loop ends. *)
Fixpoint pagination_loop (fuel : nat) (where_clause : string) (limit_per_page total_count : Z)
    (st : loop_state) : option loop_state :=
  if offset st <? total_count then
    match fuel with
    | O => None
    | S fuel' =>
        match loop_body where_clause limit_per_page st with
        | (Break, st') => Some st'
        | (Continue, st') =>
            pagination_loop fuel' where_clause limit_per_page total_count st'
        end
    end
  else Some st.

Definition query_with_pagination (fuel : nat) (districts : list string)
    (start_date end_date : string) (limit_per_page : Z) (s : session)
  : option (list pyval * session) :=
  let where_clause := build_where_clause districts start_date end_date in
  let '(total_count, s1) := get_total_count where_clause s in
  if total_count =? 0 then Some ([], s1)
  else
    st ← pagination_loop fuel where_clause limit_per_page total_count
           {| all_records := []; offset := 0; page := 1; sess := s1 |};
    Some (all_records st, sess st).

Definition bulk_params (where_clause : string) (limit : Z) : params :=
  [("$where", PyStr where_clause); ("$order", PyStr "date_occ DESC");
   ("$limit", PyInt limit)].

Definition query_with_high_limit (districts : list string) (start_date end_date : string)
    (limit : Z) (s : session) : pyval * session :=
  let where_clause := build_where_clause districts start_date end_date in
  let '(got, s') := session_get s (bulk_params where_clause limit) 60 in
  match (response ← got;
         raise_for_status response;;
         data ← response_json response;
         py_len data;;              (* print(f"Retrieved {len(data)} records") *)
         Ok data) with
  | Ok data => (data, s')
  | Raise _ => (PyList [], s')
  end.

End Fetcher.

(** ** Exporter *)

(** I/O faults of a path, chosen by the environment: [open] raises, or the
    write of line number [n] (the header is line 0) raises. *)
Inductive io_fault : Type :=
| NoFault
| OpenFails
| WriteFails (n : nat).

Record filesystem : Type := {
  files : gmap string string;
  fault : string -> io_fault
}.

Definition file_content (fs : filesystem) (path : string) : string :=
  default EmptyString (files fs !! path).

(** [open(path, 'w')]: creates or truncates the file. *)
Definition fs_open_w (fs : filesystem) (path : string) : result unit * filesystem :=
  match fault fs path with
  | OpenFails => (Raise OSError, fs)
  | _ => (Ok tt, {| files := <[path := EmptyString]> (files fs); fault := fault fs |})
  end.

(** Line number [k] is appended to the file, unless the write faults. *)
Definition fs_write_line (fs : filesystem) (path : string) (k : nat) (line : string)
  : result unit * filesystem :=
  let fs' := {| files := <[path := file_content fs path +:+ line]> (files fs);
                fault := fault fs |} in
  match fault fs path with
  | WriteFails n => if (n =? k)%nat then (Raise OSError, fs) else (Ok tt, fs')
  | _ => (Ok tt, fs')
  end.

Definition comma : ascii := ascii_of_nat 44.
Definition dquote : ascii := ascii_of_nat 34.
Definition char_cr : ascii := ascii_of_nat 13.
Definition char_lf : ascii := ascii_of_nat 10.
Definition lineterminator : string := String char_cr (String char_lf EmptyString).

Section Exporter.
Context `{Builtins}.

(** The text the csv writer takes for a field: a [str] as it is, [None] as
    the empty string, anything else through [str]. *)
Definition csv_field_text (v : pyval) : string :=
  match v with
  | PyStr s => s
  | PyNone => EmptyString
  | _ => str_of v
  end.

(** Minimal quoting of the excel dialect: a field is quoted when it holds
    the delimiter, the quote character or a character of the line
    terminator. *)
Definition csv_special (c : ascii) : bool :=
  Ascii.eqb c comma || Ascii.eqb c dquote || Ascii.eqb c char_cr || Ascii.eqb c char_lf.

Fixpoint csv_double_quotes (s : string) : string :=
  match s with
  | EmptyString => EmptyString
  | String c rest =>
      if Ascii.eqb c dquote then String dquote (String dquote (csv_double_quotes rest))
      else String c (csv_double_quotes rest)
  end.

Definition csv_quote (s : string) : string :=
  String dquote (csv_double_quotes s +:+ String dquote EmptyString).

Definition csv_field (s : string) : string :=
  if existsb csv_special (list_ascii_of_string s) then csv_quote s else s.

(** One record of the output; a row made of a single empty field is
    written as a pair of quotes. *)
Definition csv_format_row (row : list pyval) : string :=
  let texts := map csv_field_text row in
  match texts with
  | [EmptyString] => csv_quote EmptyString +:+ lineterminator
  | _ => String.concat (String comma EmptyString) (map csv_field texts) +:+ lineterminator
  end.

(** [rowdict.keys() - fieldnames] of [DictWriter._dict_to_list]. *)
Definition wrong_fields (fieldnames : list string) (rowdict : list (string * pyval))
  : list string :=
  filter (fun k => k ∉ fieldnames) (map fst rowdict).

(** [DictWriter._dict_to_list] with [extrasaction='raise'] and
    [restval='']. *)
Definition dict_to_list (fieldnames : list string) (rowdict : list (string * pyval))
  : result (list pyval) :=
  match wrong_fields fieldnames rowdict with
  | [] => Ok (map (fun key => default (PyStr EmptyString) (dict_lookup key rowdict)) fieldnames)
  | _ :: _ => Raise ValueError
  end.

(** [DictWriter.writerow] for line number [k] of the file. *)
Definition writerow (fieldnames : list string) (path : string) (k : nat) (record : pyval)
    (fs : filesystem) : result unit * filesystem :=
  match record with
  | PyDict rowdict =>
      match dict_to_list fieldnames rowdict with
      | Ok row => fs_write_line fs path k (csv_format_row row)
      | Raise e => (Raise e, fs)
      end
  | _ => (Raise AttributeError, fs)
  end.

Definition writeheader (fieldnames : list string) (path : string) (fs : filesystem)
  : result unit * filesystem :=
  writerow fieldnames path 0%nat (PyDict (map (fun k => (k, PyStr k)) fieldnames)) fs.

(** [for record in data: writer.writerow(record)], from line number [k]. *)
Fixpoint write_records (fieldnames : list string) (path : string) (k : nat)
    (records : list pyval) (fs : filesystem) : result unit * filesystem :=
  match records with
  | [] => (Ok tt, fs)
  | record :: rest =>
      match writerow fieldnames path k record fs with
      | (Ok _, fs') => write_records fieldnames path (S k) rest fs'
      | (Raise e, fs') => (Raise e, fs')
      end
  end.

(** [for record in data: all_keys.update(record.keys())]. *)
Fixpoint collect_keys (records : list pyval) (all_keys : gset string)
  : result (gset string) :=
  match records with
  | [] => Ok all_keys
  | PyDict items :: rest => collect_keys rest (all_keys ∪ list_to_set (map fst items))
  | _ :: _ => Raise AttributeError
  end.

(** [sorted(list(all_keys))]: [String.le] is the lexicographic order by
    character code. *)
Definition sorted_keys (all_keys : gset string) : list string :=
  merge_sort String.le (elements all_keys).

(** The [try] block of [save_to_csv]. *)
Definition write_csv (fieldnames : list string) (records : list pyval) (filename : string)
    (fs : filesystem) : result unit * filesystem :=
  match fs_open_w fs filename with
  | (Raise e, fs0) => (Raise e, fs0)
  | (Ok _, fs0) =>
      match writeheader fieldnames filename fs0 with
      | (Raise e, fs1) => (Raise e, fs1)
      | (Ok _, fs1) => write_records fieldnames filename 1%nat records fs1
      end
  end.

(** [save_to_csv]: the result is [Raise] for an exception that escapes the
    method (raised before the [try] block). *)
Definition save_to_csv (data : pyval) (filename : string) (fs : filesystem)
  : result bool * filesystem :=
  if negb (py_truthy data) then (Ok false, fs)
  else
    match (records ← py_iter data;
           all_keys ← collect_keys records ∅;
           Ok (records, all_keys)) with
    | Raise e => (Raise e, fs)
    | Ok (records, all_keys) =>
        let fieldnames := sorted_keys all_keys in
        match write_csv fieldnames records filename fs with
        | (Ok _, fs') => (Ok true, fs')
        | (Raise _, fs') => (Ok false, fs')
        end
    end.

End Exporter.

(** ** Orchestration *)

Definition DISTRICTS : list string := ["645"; "646"; "647"; "666"; "663"; "656"; "676"].
Definition START_DATE : string := "2025-07-26".
Definition END_DATE : string := "2025-08-25".
Definition OUTPUT_FILE : string := "hollywood_crimes_30days_robust.csv".

Section Main.
Context `{Builtins}.

(** Methods 1 and 2 of [main]: the bulk query, then the paginated one when
    the bulk result is empty or has exactly 50000 items. *)
Definition main_retrieve (fuel : nat) (s : session) : option (result pyval * session) :=
  let '(data, s1) := query_with_high_limit DISTRICTS START_DATE END_DATE 50000 s in
  match (if negb (py_truthy data) then Ok true
         else n ← py_len data; Ok (n =? 50000)) with
  | Raise e => Some (Raise e, s1)
  | Ok true =>
      '(records, s2) ← query_with_pagination fuel DISTRICTS START_DATE END_DATE 1000 s1;
      Some (Ok (PyList records), s2)
  | Ok false => Some (Ok data, s1)
  end.

Definition main (fuel : nat) (s : session) (fs : filesystem)
  : option (result unit * session * filesystem) :=
  '(got, s') ← main_retrieve fuel s;
  match got with
  | Raise e => Some (Raise e, s', fs)
  | Ok data =>
      if py_truthy data then
        match save_to_csv data OUTPUT_FILE fs with
        | (Ok _, fs') => Some (Ok tt, s', fs')
        | (Raise e, fs') => Some (Raise e, s', fs')
        end
      else Some (Ok tt, s', fs)
  end.

End Main.

(** ** Notions used to state the properties *)

(** The request [get_total_count] sends, and the request for the page at
    [offset]. *)
Definition count_request (where_clause : string) : request :=
  {| req_params := count_params where_clause; req_timeout := 30 |}.

Definition page_request (where_clause : string) (limit_per_page offset : Z) : request :=
  {| req_params := page_params where_clause limit_per_page offset; req_timeout := 30 |}.

Definition bulk_request (where_clause : string) (limit : Z) : request :=
  {| req_params := bulk_params where_clause limit; req_timeout := 60 |}.

(** What the [k]-th reply of the environment leads to when it answers a
    page request, and the items it contributes. *)
Definition verdict_at (s : session) (k : nat) : page_verdict :=
  page_of_response (result_of_outcome (replies s k)).

Definition items_at (s : session) (k : nat) : list pyval :=
  match verdict_at s k with
  | PageAppended items => items
  | _ => []
  end.

Definition is_appended (v : page_verdict) : Prop :=
  match v with PageAppended _ => True | _ => False end.

Definition is_failed (v : page_verdict) : Prop :=
  match v with PageFailed _ => True | _ => False end.

(** [run_of where_clause limit_per_page total_count st n st']: from the loop
    state [st] the pagination loop issues exactly [n] page requests and ends
    in [st'].  The [i]-th of them asks for the page at offset
    [offset st + i * limit_per_page] and is answered by the reply number
    [length (sent (sess st)) + i]; each requested offset is below the total;
    all pages but the last were appended; the loop ends because the offset
    after the last appended page has reached the total, or because the last
    page was empty, or because the last request failed. *)
Definition run_of (where_clause : string) (limit_per_page total_count : Z)
    (st : loop_state) (n : nat) (st' : loop_state) : Prop :=
  let base := length (sent (sess st)) in
  replies (sess st') = replies (sess st)
  /\ sent (sess st') = sent (sess st) ++
       map (fun i => page_request where_clause limit_per_page
                       (offset st + Z.of_nat i * limit_per_page)) (seq 0 n)
  /\ all_records st' = all_records st ++
       flat_map (fun i => items_at (sess st) (base + i)) (seq 0 n)
  /\ (forall i, (i < n)%nat -> offset st + Z.of_nat i * limit_per_page < total_count)
  /\ (forall i, (S i < n)%nat -> is_appended (verdict_at (sess st) (base + i)))
  /\ match n with
     | O => total_count <= offset st
     | S m =>
         (is_appended (verdict_at (sess st) (base + m))
          /\ total_count <= offset st + Z.of_nat n * limit_per_page)
         \/ verdict_at (sess st) (base + m) = PageEmpty
         \/ is_failed (verdict_at (sess st) (base + m))
     end.

(** A record of the record set: a [dict]. *)
Definition is_record (v : pyval) : Prop :=
  match v with PyDict _ => True | _ => False end.

(** The number of positions of [s] at which [p] occurs. *)
Fixpoint occurrences (p s : string) : nat :=
  ((if String.prefix p s then 1 else 0) +
   match s with
   | EmptyString => 0
   | String _ rest => occurrences p rest
   end)%nat.

Definition squote : ascii := ascii_of_nat 39.

Fixpoint quote_free (s : string) : bool :=
  match s with
  | EmptyString => true
  | String c rest => negb (Ascii.eqb c squote) && quote_free rest
  end.

(** The segments of [s] between its quote characters. *)
Fixpoint split_on_quote (s : string) : list string :=
  match s with
  | EmptyString => [EmptyString]
  | String c rest =>
      if Ascii.eqb c squote then EmptyString :: split_on_quote rest
      else match split_on_quote rest with
           | seg :: segs => String c seg :: segs
           | [] => [String c EmptyString]
           end
  end.

Fixpoint literals_of_segments (segs : list string) : list string :=
  match segs with
  | _ :: lit :: rest =>
      match rest with
      | [] => []
      | _ :: _ => lit :: literals_of_segments rest
      end
  | _ => []
  end.

(** The quoted string literals of a filter expression, in order. *)
Definition quoted_literals (s : string) : list string :=
  literals_of_segments (split_on_quote s).

(** Builtins for the examples: [int] reads a decimal numeral with an
    optional minus sign, [str] prints an [int] or a [bool]; the examples use
    no other conversions. *)
Fixpoint digits_value (acc : Z) (s : string) : option Z :=
  match s with
  | EmptyString => Some acc
  | String c rest =>
      let d := Z.of_nat (nat_of_ascii c) - 48 in
      if (0 <=? d) && (d <=? 9) then digits_value (10 * acc + d) rest else None
  end.

Definition decimal_int_of_str (s : string) : option Z :=
  match s with
  | EmptyString => None
  | String c rest =>
      if Ascii.eqb c (ascii_of_nat 45) then
        match rest with
        | EmptyString => None
        | _ => Z.opp <$> digits_value 0 rest
        end
      else digits_value 0 s
  end.

Definition example_str_of (v : pyval) : string :=
  match v with
  | PyBool true => "True"
  | PyBool false => "False"
  | PyInt n => NilZero.string_of_int (Z.to_int n)
  | PyStr s => s
  | _ => EmptyString
  end.

Definition example_builtins : Builtins :=
  {| int_of_str := decimal_int_of_str; str_of := example_str_of |}.

(** A session whose replies are the given list, then transport errors. *)
Definition scripted (script : list http_outcome) : session :=
  {| replies := fun k => nth k script TransportError; sent := [] |}.

Definition ok_json (v : pyval) : http_outcome := HttpResponse 200 (Some v).

Definition count_reply (n : string) : http_outcome :=
  ok_json (PyList [PyDict [("count", PyStr n)]]).

Definition rec_id (n : Z) : pyval := PyDict [("dr_no", PyInt n)].

(** A file system without files and without faults. *)
Definition empty_fs : filesystem :=
  {| files := ∅; fault := fun _ => NoFault |}.

(** The filter expression of [main]. *)
Definition WHERE : string := build_where_clause DISTRICTS START_DATE END_DATE.

(** A count of 4, then a full page of two records and a short page of one
    record (a record went away between the count and the second page). *)
Definition short_pages : session :=
  scripted [count_reply "4";
            ok_json (PyList [rec_id 1; rec_id 2]);
            ok_json (PyList [rec_id 3])].

(** A count of 5 for pages of one record; the third page request is
    answered by a server error. *)
Definition third_page_down : session :=
  scripted [count_reply "5";
            ok_json (PyList [rec_id 1]);
            ok_json (PyList [rec_id 2]);
            HttpResponse 503 None;
            ok_json (PyList [rec_id 4]);
            ok_json (PyList [rec_id 5])].

(** A redirection status that carries a well-formed count. *)
Definition count_with_status_300 : session :=
  scripted [HttpResponse 300 (Some (PyList [PyDict [("count", PyStr "5")]]))].

(** The bulk query is answered with exactly 50000 records; the count is 3
    and the first page holds the three records. *)
Definition bulk_at_limit : session :=
  scripted [ok_json (PyList (repeat (rec_id 0) (Z.to_nat 50000)));
            count_reply "3";
            ok_json (PyList [rec_id 1; rec_id 2; rec_id 3])].

(** Two records with different key sets, and the text exported for them. *)
Definition sparse_records : pyval :=
  PyList [PyDict [("a", PyStr "1"); ("b", PyStr "2")]; PyDict [("a", PyStr "3")]].

Definition sparse_csv : string :=
  "a,b" +:+ lineterminator +:+ "1,2" +:+ lineterminator +:+ "3," +:+ lineterminator.

(** The number of pages of size [ps] that hold [total] records. *)
Definition pages_needed (total ps : Z) : nat := Z.to_nat ((total + ps - 1) / ps).

(** The line the writer produces for a record, and the text of a whole
    export: the header line, then one line per record. *)
Definition record_line `{Builtins} (fieldnames : list string) (record : pyval) : string :=
  match record with
  | PyDict items =>
      csv_format_row
        (map (fun key => default (PyStr EmptyString) (dict_lookup key items)) fieldnames)
  | _ => EmptyString
  end.

Definition csv_text `{Builtins} (fieldnames : list string) (records : list pyval) : string :=
  csv_format_row (map PyStr fieldnames)
    +:+ foldr (fun record rest => record_line fieldnames record +:+ rest) EmptyString records.

(** A count of 1, then a non-empty page for every request, for ever. *)
Definition endless_pages : session :=
  {| replies := fun k => match k with
                         | O => count_reply "1"
                         | S _ => ok_json (PyList [rec_id 0])
                         end;
     sent := [] |}.

(** A count of 5 for pages of two records, all of them served. *)
Definition five_records : session :=
  scripted [count_reply "5";
            ok_json (PyList [rec_id 1; rec_id 2]);
            ok_json (PyList [rec_id 3; rec_id 4]);
            ok_json (PyList [rec_id 5])].

(** The bulk query answered by the two records of [sparse_records]. *)
Definition bulk_sparse : session :=
  scripted [ok_json sparse_records].

(** The bulk query answered by a JSON object instead of a list. *)
Definition bulk_error_object : session :=
  scripted [ok_json (PyDict [("error", PyBool true); ("message", PyStr "bad query")])].

(** A file system where the output file exists with old content, and one
    where no file can be opened. *)
Definition stale_fs : filesystem :=
  {| files := {[OUTPUT_FILE := "dr_no" +:+ lineterminator +:+ "17" +:+ lineterminator]};
     fault := fun _ => NoFault |}.

Definition locked_fs : filesystem :=
  {| files := ∅; fault := fun _ => OpenFails |}.

(** No request gets through. *)
Definition network_down : session := scripted [].

(** * Properties *)

Local Arguments String.append : simpl nomatch.

(** ** Strings *)

Lemma append_assoc (a b c : string) : (a +:+ b) +:+ c = a +:+ (b +:+ c).
Proof. induction a as [|x a IH]; simpl; [reflexivity | f_equal; exact IH]. Qed.

Lemma prefix_append (p b : string) : String.prefix p (p +:+ b) = true.
Proof.
  induction p as [|x p IH]; simpl; [by destruct b|].
  destruct (ascii_dec x x); [exact IH | congruence].
Qed.

Lemma occurrences_here (p s : string) :
  String.prefix p s = true -> (1 <= occurrences p s)%nat.
Proof. intros Hp. destruct s; cbn [occurrences]; rewrite Hp; lia. Qed.

Lemma occurrences_skip (p a s : string) :
  (occurrences p s <= occurrences p (a +:+ s))%nat.
Proof.
  induction a as [|x a IH]; [simpl; lia|].
  change (String x a +:+ s) with (String x (a +:+ s)). cbn [occurrences].
  destruct (String.prefix p (String x (a +:+ s))); lia.
Qed.

Lemma occurrences_infix (p a b : string) : (1 <= occurrences p (a +:+ p +:+ b))%nat.
Proof.
  etrans; [|apply occurrences_skip].
  apply occurrences_here, prefix_append.
Qed.

(** A member of the joined list occurs in the joined text. *)
Lemma concat_member (sep d : string) (l : list string) :
  d ∈ l -> exists a b, String.concat sep l = a +:+ d +:+ b.
Proof.
  induction l as [|x l IH]; intros Hd; [by apply elem_of_nil in Hd|].
  apply elem_of_cons in Hd as [->|Hd].
  - destruct l as [|y l].
    + exists EmptyString, EmptyString. simpl. clear. induction x; simpl; congruence.
    + exists EmptyString, (sep +:+ String.concat sep (y :: l)). reflexivity.
  - destruct (IH Hd) as (a & b & E). destruct l as [|y l]; [by apply elem_of_nil in Hd|].
    exists (x +:+ sep +:+ a), b.
    change (String.concat sep (x :: y :: l)) with (x +:+ sep +:+ String.concat sep (y :: l)).
    rewrite E, !append_assoc. reflexivity.
Qed.

Lemma split_on_quote_free (x : string) :
  quote_free x = true -> split_on_quote x = [x].
Proof.
  induction x as [|c x IH]; simpl; [reflexivity|].
  intros [Hc Hx]%andb_prop. apply negb_true_iff in Hc. rewrite Hc, (IH Hx). reflexivity.
Qed.

Lemma split_on_quote_cons (x r : string) :
  quote_free x = true ->
  split_on_quote (x +:+ String squote r) = x :: split_on_quote r.
Proof.
  induction x as [|c x IH]; simpl.
  - intros _. reflexivity.
  - intros [Hc Hx]%andb_prop. apply negb_true_iff in Hc. rewrite Hc, (IH Hx). reflexivity.
Qed.

(** ** Query builder *)

Lemma build_where_clause_shape (districts : list string) (start_date end_date : string) :
  build_where_clause districts start_date end_date
  = "rpt_dist_no IN (" +:+ String squote
      (String.concat "', '" districts +:+ String squote
        (") AND date_occ >= " +:+ String squote
          (start_date +:+ String squote
            (" AND date_occ <= " +:+ String squote
              (end_date +:+ String squote EmptyString))))).
Proof. reflexivity. Qed.

Lemma split_joined (c : string) (cs : list string) (r : string) :
  Forall (fun d => quote_free d = true) (c :: cs) ->
  split_on_quote (String.concat "', '" (c :: cs) +:+ String squote r)
  = c :: flat_map (fun d => [", "; d]) cs ++ split_on_quote r.
Proof.
  revert c. induction cs as [|d cs IH]; intros c Hq.
  - simpl. apply split_on_quote_cons. by inversion Hq.
  - inversion Hq as [|? ? Hc Hrest]; subst.
    trans (split_on_quote
             (c +:+ String squote
                (", " +:+ String squote (String.concat "', '" (d :: cs) +:+ String squote r)))).
    { f_equal.
      change (String.concat "', '" (c :: d :: cs))
        with (c +:+ String squote (", " +:+ String squote (String.concat "', '" (d :: cs)))).
      rewrite append_assoc. reflexivity. }
    rewrite (split_on_quote_cons c) by exact Hc.
    rewrite (split_on_quote_cons ", ") by reflexivity.
    rewrite (IH d Hrest). reflexivity.
Qed.

Lemma literals_interleaved (x c : string) (cs tail : list string) (y : string) :
  literals_of_segments (x :: c :: flat_map (fun d => [", "; d]) cs ++ y :: tail)
  = c :: cs ++ literals_of_segments (y :: tail).
Proof.
  revert x c. induction cs as [|d cs IH]; intros x c.
  - reflexivity.
  - simpl. f_equal. specialize (IH ", "%string d). simpl in IH. exact IH.
Qed.

(** C7, as amended.  For a non-empty list of district codes, codes and
    dates free of quote characters: the quoted literals of the expression
    that [build_where_clause] returns are exactly the district codes, one
    literal per code and in the given order, followed by the two boundary
    dates; every code and both dates occur in the expression.  (Nothing is
    said about how often a code occurs as a substring.) *)
Theorem build_where_clause_literals (districts : list string) (start_date end_date : string) :
  districts <> [] ->
  Forall (fun d => quote_free d = true) districts ->
  quote_free start_date = true ->
  quote_free end_date = true ->
  quoted_literals (build_where_clause districts start_date end_date)
    = districts ++ [start_date; end_date]
  /\ (forall d, d ∈ districts ->
        (1 <= occurrences d (build_where_clause districts start_date end_date))%nat)
  /\ (1 <= occurrences start_date (build_where_clause districts start_date end_date))%nat
  /\ (1 <= occurrences end_date (build_where_clause districts start_date end_date))%nat.
Proof.
  intros Hne Hq Hs He. split; [|split; [|split]].
  - destruct districts as [|c cs]; [congruence|].
    rewrite build_where_clause_shape. unfold quoted_literals.
    rewrite (split_on_quote_cons "rpt_dist_no IN (") by reflexivity.
    rewrite split_joined by exact Hq.
    rewrite (split_on_quote_cons ") AND date_occ >= ") by reflexivity.
    rewrite (split_on_quote_cons start_date) by exact Hs.
    rewrite (split_on_quote_cons " AND date_occ <= ") by reflexivity.
    rewrite (split_on_quote_cons end_date) by exact He.
    rewrite literals_interleaved. reflexivity.
  - intros d Hd. destruct (concat_member "', '" d districts Hd) as (a & b & E).
    unfold build_where_clause. rewrite E.
    replace ("rpt_dist_no IN ('" +:+ (a +:+ d +:+ b) +:+ "') AND date_occ >= '" +:+
             start_date +:+ "' AND date_occ <= '" +:+ end_date +:+ "'")
      with (("rpt_dist_no IN ('" +:+ a) +:+ d +:+
            (b +:+ "') AND date_occ >= '" +:+ start_date +:+ "' AND date_occ <= '" +:+
             end_date +:+ "'")) by (rewrite !append_assoc; reflexivity).
    apply occurrences_infix.
  - unfold build_where_clause.
    replace ("rpt_dist_no IN ('" +:+ String.concat "', '" districts +:+
             "') AND date_occ >= '" +:+ start_date +:+ "' AND date_occ <= '" +:+
             end_date +:+ "'")
      with (("rpt_dist_no IN ('" +:+ String.concat "', '" districts +:+
             "') AND date_occ >= '") +:+ start_date +:+
            ("' AND date_occ <= '" +:+ end_date +:+ "'"))
      by (rewrite !append_assoc; reflexivity).
    apply occurrences_infix.
  - unfold build_where_clause.
    replace ("rpt_dist_no IN ('" +:+ String.concat "', '" districts +:+
             "') AND date_occ >= '" +:+ start_date +:+ "' AND date_occ <= '" +:+
             end_date +:+ "'")
      with (("rpt_dist_no IN ('" +:+ String.concat "', '" districts +:+
             "') AND date_occ >= '" +:+ start_date +:+ "' AND date_occ <= '") +:+
            end_date +:+ "'")
      by (rewrite !append_assoc; reflexivity).
    apply occurrences_infix.
Qed.

Lemma build_where_clause_literals_witness :
  quoted_literals (build_where_clause DISTRICTS START_DATE END_DATE)
    = DISTRICTS ++ [START_DATE; END_DATE]
  /\ (forall d, d ∈ DISTRICTS ->
        (1 <= occurrences d (build_where_clause DISTRICTS START_DATE END_DATE))%nat)
  /\ (1 <= occurrences START_DATE (build_where_clause DISTRICTS START_DATE END_DATE))%nat
  /\ (1 <= occurrences END_DATE (build_where_clause DISTRICTS START_DATE END_DATE))%nat.
Proof.
  apply (build_where_clause_literals DISTRICTS START_DATE END_DATE).
  - discriminate.
  - repeat constructor.
  - reflexivity.
  - reflexivity.
Defined.

(** C7 as stated fails: the district code 2025 occurs three times in the
    expression built for it and the dates of [main], once as the code and
    once in each date. *)
Lemma build_where_clause_code_repeated :
  "2025" ∈ ["2025"]
  /\ occurrences "2025" (build_where_clause ["2025"] START_DATE END_DATE) = 3%nat
  /\ occurrences "2025" (build_where_clause ["2025"] START_DATE END_DATE) <> 1%nat.
Proof.
  split; [apply list_elem_of_here|].
  split; [vm_compute; reflexivity | vm_compute; discriminate].
Qed.

(** With the configuration of [main] every district code does occur exactly
    once. *)
Lemma build_where_clause_main_once :
  Forall (fun d => occurrences d (build_where_clause DISTRICTS START_DATE END_DATE) = 1%nat)
    DISTRICTS.
Proof. repeat constructor. Qed.

(** ** Fetcher: the count request *)

Section FetcherFacts.
Context `{Builtins}.

Lemma get_total_count_session (w : string) (s : session) :
  snd (get_total_count w s) = log_request s (count_request w).
Proof.
  unfold get_total_count, session_get.
  destruct (count_of_response _); reflexivity.
Qed.

Lemma get_total_count_value (w : string) (s : session) :
  fst (get_total_count w s)
  = match count_of_response (result_of_outcome (replies s (length (sent s)))) with
    | Ok n => n
    | Raise _ => 0
    end.
Proof.
  unfold get_total_count, session_get.
  destruct (count_of_response _); reflexivity.
Qed.

Lemma raise_for_status_error (st : Z) (body : option pyval) :
  400 <= st < 600 ->
  raise_for_status {| status_code := st; json_body := body |} = Raise HTTPError.
Proof.
  intros Hst. unfold raise_for_status. simpl.
  destruct (400 <=? st) eqn:E1; [|lia]. destruct (st <? 600) eqn:E2; [|lia]. reflexivity.
Qed.

Lemma raise_for_status_pass (st : Z) (body : option pyval) :
  ~ (400 <= st < 600) ->
  raise_for_status {| status_code := st; json_body := body |} = Ok tt.
Proof.
  intros Hst. unfold raise_for_status. simpl.
  destruct (400 <=? st) eqn:E1; [|reflexivity].
  destruct (st <? 600) eqn:E2; [lia|reflexivity].
Qed.

(** C4, as amended.  [get_total_count] is a total function to the integers
    (no exception reaches the caller) and sends one request.  It returns 0
    when the request raises, when the status is a 4xx or 5xx one, when the
    body is not JSON and when [int(data[0]['count'])] raises on the decoded
    body; on a response whose status is not 4xx or 5xx and whose body
    yields an integer count it returns that count. *)
Theorem get_total_count_result (w : string) (s : session) :
  (replies s (length (sent s)) = TransportError ->
     fst (get_total_count w s) = 0)
  /\ (forall st body, replies s (length (sent s)) = HttpResponse st body ->
        400 <= st < 600 -> fst (get_total_count w s) = 0)
  /\ (forall st, replies s (length (sent s)) = HttpResponse st None ->
        fst (get_total_count w s) = 0)
  /\ (forall st data e, replies s (length (sent s)) = HttpResponse st (Some data) ->
        count_in_body data = Raise e -> fst (get_total_count w s) = 0)
  /\ (forall st data n, replies s (length (sent s)) = HttpResponse st (Some data) ->
        ~ (400 <= st < 600) -> count_in_body data = Ok n ->
        fst (get_total_count w s) = n)
  /\ sent (snd (get_total_count w s)) = sent s ++ [count_request w].
Proof.
  rewrite get_total_count_session, get_total_count_value.
  repeat split.
  - intros ->. reflexivity.
  - intros st body -> Hst. unfold count_of_response. simpl.
    rewrite raise_for_status_error by exact Hst. reflexivity.
  - intros st ->. unfold count_of_response. simpl.
    destruct (raise_for_status _); reflexivity.
  - intros st data e -> He. unfold count_of_response. simpl.
    destruct (raise_for_status _); simpl; [|reflexivity].
    unfold response_json. simpl. rewrite He. reflexivity.
  - intros st data n -> Hst Hn. unfold count_of_response. simpl.
    rewrite raise_for_status_pass by exact Hst. simpl.
    unfold response_json. simpl. rewrite Hn. reflexivity.
Qed.

(** C5.  When the count is 0, [query_with_pagination] returns the empty
    list whatever the fuel, and the only request of the call is the count
    request: no page is requested. *)
Theorem query_with_pagination_zero_count (fuel : nat) (districts : list string)
    (start_date end_date : string) (limit_per_page : Z) (s : session) :
  fst (get_total_count (build_where_clause districts start_date end_date) s) = 0 ->
  exists s1,
    query_with_pagination fuel districts start_date end_date limit_per_page s = Some ([], s1)
    /\ sent s1 = sent s ++ [count_request (build_where_clause districts start_date end_date)]
    /\ replies s1 = replies s.
Proof.
  intros H0. exists (log_request s (count_request (build_where_clause districts start_date end_date))).
  split; [|split; reflexivity].
  unfold query_with_pagination.
  pose proof (get_total_count_session (build_where_clause districts start_date end_date) s) as Hs.
  destruct (get_total_count _ s) as [total s1]. simpl in *. subst. reflexivity.
Qed.

End FetcherFacts.

(** ** Fetcher: the pagination loop *)

Lemma map_seq_succ {A} (f : nat -> A) (n : nat) :
  map f (seq 0 (S n)) = f 0%nat :: map (fun i => f (S i)) (seq 0 n).
Proof. simpl. rewrite <- seq_shift, map_map. reflexivity. Qed.

Lemma flat_map_seq_succ {A} (f : nat -> list A) (n : nat) :
  flat_map f (seq 0 (S n)) = f 0%nat ++ flat_map (fun i => f (S i)) (seq 0 n).
Proof.
  simpl. f_equal. rewrite <- seq_shift.
  generalize (seq 0 n). intros l. induction l as [|x l IH]; simpl; [reflexivity|].
  by rewrite IH.
Qed.

Lemma verdict_at_replies (s s' : session) (k : nat) :
  replies s' = replies s -> verdict_at s' k = verdict_at s k.
Proof. unfold verdict_at. intros ->. reflexivity. Qed.

Lemma items_at_replies (s s' : session) (k : nat) :
  replies s' = replies s -> items_at s' k = items_at s k.
Proof. unfold items_at. intros E. by rewrite (verdict_at_replies s s' k E). Qed.

Lemma py_iter_has_len (v : pyval) (items : list pyval) :
  py_iter v = Ok items -> py_len v = Ok (Z.of_nat (length items)).
Proof.
  destruct v; simpl; try discriminate; intros [= <-]; f_equal; f_equal.
  - rewrite length_map. clear. induction s; simpl; congruence.
  - by rewrite length_map.
Qed.

Section LoopFacts.
Context `{Builtins}.
Variables (w : string) (ps total : Z).

(** The loop body in terms of the verdict on the reply it consumes. *)
Lemma loop_body_verdict (st : loop_state) :
  loop_body w ps st
  = match verdict_at (sess st) (length (sent (sess st))) with
    | PageAppended items =>
        (Continue, {| all_records := all_records st ++ items;
                      offset := offset st + ps;
                      page := page st + 1;
                      sess := log_request (sess st) (page_request w ps (offset st)) |})
    | _ =>
        (Break, {| all_records := all_records st; offset := offset st; page := page st;
                   sess := log_request (sess st) (page_request w ps (offset st)) |})
    end.
Proof.
  unfold loop_body, session_get, verdict_at.
  destruct (page_of_response _); reflexivity.
Qed.

(** Each iteration extends the accumulated list: nothing is ever removed
    from it. *)
Lemma loop_body_extends (st : loop_state) :
  exists items, all_records (snd (loop_body w ps st)) = all_records st ++ items.
Proof.
  rewrite loop_body_verdict.
  destruct (verdict_at _ _) as [items| |e]; simpl.
  - by exists items.
  - exists []. by rewrite app_nil_r.
  - exists []. by rewrite app_nil_r.
Qed.

(** With a positive page size the loop returns, given fuel for one iteration
    per record still to fetch, and its run is described by [run_of]. *)
Lemma pagination_loop_run (fuel : nat) (st : loop_state) :
  0 < ps ->
  (Z.to_nat (total - offset st) <= fuel)%nat ->
  exists n st',
    pagination_loop fuel w ps total st = Some st' /\ run_of w ps total st n st'.
Proof.
  intros Hps. revert st. induction fuel as [|fuel IH]; intros st Hfuel.
  - exists 0%nat, st. simpl.
    destruct (offset st <? total) eqn:E; [lia|].
    split; [reflexivity|]. unfold run_of. simpl. rewrite !app_nil_r.
    repeat split; intros; lia.
  - simpl. destruct (offset st <? total) eqn:E.
    2:{ exists 0%nat, st. split; [reflexivity|]. unfold run_of. simpl. rewrite !app_nil_r.
        repeat split; intros; lia. }
    apply Z.ltb_lt in E. rewrite loop_body_verdict.
    destruct (verdict_at (sess st) (length (sent (sess st)))) as [items| |e] eqn:Ev.
    + set (st1 := {| all_records := all_records st ++ items; offset := offset st + ps;
                     page := page st + 1;
                     sess := log_request (sess st) (page_request w ps (offset st)) |}).
      destruct (IH st1) as (n & st' & Hrun & Hspec); [simpl; lia|].
      exists (S n), st'. split; [exact Hrun|].
      destruct Hspec as (Hrep & Hsent & Hrec & Hlt & Happ & Hstop).
      simpl in Hrep, Hsent, Hrec, Hlt, Happ, Hstop.
      rewrite length_app in Happ, Hstop, Hrec. simpl in Happ, Hstop, Hrec.
      assert (Hidx : forall i, (length (sent (sess st)) + 1 + i
                                = length (sent (sess st)) + S i)%nat) by (intros; lia).
      unfold run_of. cbv zeta. split; [exact Hrep|]. split; [|split; [|split; [|split]]].
      * rewrite Hsent, map_seq_succ, <- app_assoc. f_equal. cbn [app].
        f_equal; [f_equal; lia | apply map_ext; intros i; f_equal; lia].
      * rewrite Hrec, flat_map_seq_succ, <- app_assoc. f_equal.
        rewrite Nat.add_0_r.
        replace (items_at (sess st) (length (sent (sess st)))) with items
          by (unfold items_at; rewrite Ev; reflexivity).
        f_equal.
        apply flat_map_ext. intros i. rewrite Hidx.
        apply items_at_replies. reflexivity.
      * intros [|i] Hi; [lia|]. specialize (Hlt i ltac:(lia)). lia.
      * intros [|i] Hi.
        { rewrite Nat.add_0_r, Ev. exact I. }
        specialize (Happ i ltac:(lia)). rewrite Hidx in Happ.
        rewrite (verdict_at_replies (sess st)) in Happ by reflexivity. exact Happ.
      * destruct n as [|m].
        { left. rewrite Nat.add_0_r, Ev. split; [exact I|]. lia. }
        rewrite Hidx in Hstop.
        rewrite (verdict_at_replies (sess st)) in Hstop by reflexivity.
        destruct Hstop as [[Ha Hge]|[He|Hf]]; [left|right; left|right; right]; auto.
        split; [exact Ha|lia].
    + eexists 1%nat, _. split; [reflexivity|]. unfold run_of. simpl.
      rewrite Nat.add_0_r. unfold items_at. rewrite Ev, !app_nil_r.
      repeat split; try (intros; lia).
      * do 3 f_equal. lia.
      * right; left; reflexivity.
    + eexists 1%nat, _. split; [reflexivity|]. unfold run_of. simpl.
      rewrite Nat.add_0_r. unfold items_at. rewrite Ev, !app_nil_r.
      repeat split; try (intros; lia).
      * do 3 f_equal. lia.
      * right; right; exact I.
Qed.

End LoopFacts.

Section PaginationFacts.
Context `{Builtins}.

Lemma pagination_loop_fuel_mono (w : string) (ps total : Z) (fuel fuel' : nat)
    (st st' : loop_state) :
  pagination_loop fuel w ps total st = Some st' ->
  (fuel <= fuel')%nat ->
  pagination_loop fuel' w ps total st = Some st'.
Proof.
  revert fuel' st. induction fuel as [|fuel IH]; intros fuel' st Hrun Hle.
  - simpl in Hrun. destruct (offset st <? total) eqn:E; [discriminate|].
    destruct fuel'; simpl; rewrite E; exact Hrun.
  - destruct fuel' as [|fuel']; [lia|]. simpl in *.
    destruct (offset st <? total); [|exact Hrun].
    destruct (loop_body w ps st) as [[|] st1]; [|exact Hrun].
    apply IH; [exact Hrun | lia].
Qed.

Lemma flat_map_length_bound {A} (f : nat -> list A) (l : list nat) (b : Z) :
  (forall i, Z.of_nat (length (f i)) <= b) ->
  Z.of_nat (length (flat_map f l)) <= Z.of_nat (length l) * b.
Proof.
  intros Hb. induction l as [|x l IH]; simpl; [lia|].
  rewrite length_app. specialize (Hb x). lia.
Qed.

(** The whole call, for a count that is not 0: the loop starts from the
    empty list at offset 0 in the session left by the count request. *)
Lemma query_with_pagination_loop (fuel : nat) (districts : list string)
    (start_date end_date : string) (ps total : Z) (s s1 : session) :
  get_total_count (build_where_clause districts start_date end_date) s = (total, s1) ->
  total <> 0 ->
  query_with_pagination fuel districts start_date end_date ps s
  = (st ← pagination_loop fuel (build_where_clause districts start_date end_date) ps total
            {| all_records := []; offset := 0; page := 1; sess := s1 |};
     Some (all_records st, sess st)).
Proof.
  intros Hc Hne. unfold query_with_pagination. rewrite Hc.
  destruct (total =? 0) eqn:E; [lia|reflexivity].
Qed.

(** The run of the whole call for a count that is not 0 and a positive page
    size: it returns, for any fuel of at least [total] iterations, what the
    loop started at offset 0 in the session after the count request ends
    with. *)
Lemma pagination_from_count (districts : list string) (start_date end_date : string)
    (ps total : Z) (s s1 : session) :
  get_total_count (build_where_clause districts start_date end_date) s = (total, s1) ->
  total <> 0 ->
  0 < ps ->
  exists (n : nat) (st' : loop_state),
    (forall fuel, (Z.to_nat total <= fuel)%nat ->
       query_with_pagination fuel districts start_date end_date ps s
       = Some (all_records st', sess st'))
    /\ run_of (build_where_clause districts start_date end_date) ps total
         {| all_records := []; offset := 0; page := 1; sess := s1 |} n st'.
Proof.
  intros Hc Htotal Hps.
  set (w := build_where_clause districts start_date end_date) in *.
  set (st0 := {| all_records := []; offset := 0; page := 1; sess := s1 |}).
  destruct (pagination_loop_run w ps total (Z.to_nat total) st0 Hps)
    as (n & st' & Hrun & Hspec); [simpl; lia|].
  exists n, st'. split; [|exact Hspec].
  intros fuel Hfuel.
  rewrite (query_with_pagination_loop fuel _ _ _ ps total s s1 Hc) by exact Htotal.
  fold w. fold st0.
  rewrite (pagination_loop_fuel_mono w ps total _ fuel st0 st' Hrun Hfuel). reflexivity.
Qed.

(** C1, as amended.  For a positive count [total] and a positive page size
    [ps], whatever the replies: [query_with_pagination] returns, having
    requested [n >= 1] pages of size [ps] at the offsets 0, ps, 2 ps, ... in
    this order; every requested offset is below [total] and every page but
    the last was appended, so the loop did not stop earlier; it stops after
    the [n]-th page because (a) that page was appended and the next offset
    [n * ps] has reached [total], or (b) that page was empty, or (c) that
    request failed; the list returned is the concatenation of the appended
    pages in request order, so in cases (b) and (c) the records so far are
    returned. *)
Theorem query_with_pagination_run (districts : list string) (start_date end_date : string)
    (ps total : Z) (s s1 : session) :
  get_total_count (build_where_clause districts start_date end_date) s = (total, s1) ->
  0 < total ->
  0 < ps ->
  exists (n : nat) (records : list pyval) (s2 : session),
    (forall fuel, (Z.to_nat total <= fuel)%nat ->
       query_with_pagination fuel districts start_date end_date ps s = Some (records, s2))
    /\ (1 <= n)%nat
    /\ sent s2 = sent s1 ++
         map (fun i => page_request (build_where_clause districts start_date end_date) ps
                         (Z.of_nat i * ps)) (seq 0 n)
    /\ records = flat_map (fun i => items_at s1 (length (sent s1) + i)) (seq 0 n)
    /\ (forall i, (i < n)%nat -> Z.of_nat i * ps < total)
    /\ (forall i, (S i < n)%nat -> is_appended (verdict_at s1 (length (sent s1) + i)))
    /\ ((is_appended (verdict_at s1 (length (sent s1) + (n - 1)))
         /\ total <= Z.of_nat n * ps)
        \/ verdict_at s1 (length (sent s1) + (n - 1)) = PageEmpty
        \/ is_failed (verdict_at s1 (length (sent s1) + (n - 1)))).
Proof.
  intros Hc Htotal Hps.
  destruct (pagination_from_count districts start_date end_date ps total s s1 Hc)
    as (n & st' & Hrun & Hspec); [lia | exact Hps |].
  destruct Hspec as (Hrep & Hsent & Hrec & Hlt & Happ & Hstop).
  simpl in Hrep, Hsent, Hrec, Hlt, Happ, Hstop.
  exists n, (all_records st'), (sess st').
  destruct n as [|m]; [lia|].
  split; [exact Hrun|]. split; [lia|]. split; [exact Hsent|]. split; [exact Hrec|].
  split; [exact Hlt|]. split; [exact Happ|].
  replace (S m - 1)%nat with m by lia. exact Hstop.
Qed.

(** C3.  For a count [total >= 0], a positive page size [ps] and replies
    to the page requests whose appended pages hold at most [ps] items each:
    [query_with_pagination] returns a list of at most [total + ps] items;
    and an iteration of the loop never shortens the accumulated list. *)
Theorem query_with_pagination_length (districts : list string)
    (start_date end_date : string) (ps total : Z) (s s1 : session) :
  get_total_count (build_where_clause districts start_date end_date) s = (total, s1) ->
  0 <= total ->
  0 < ps ->
  (forall k items, (length (sent s) < k)%nat ->
     verdict_at s k = PageAppended items -> Z.of_nat (length items) <= ps) ->
  (exists (records : list pyval) (s2 : session),
     (forall fuel, (Z.to_nat total <= fuel)%nat ->
        query_with_pagination fuel districts start_date end_date ps s = Some (records, s2))
     /\ Z.of_nat (length records) <= total + ps)
  /\ (forall st : loop_state,
        (length (all_records st)
         <= length (all_records
                      (snd (loop_body (build_where_clause districts start_date end_date)
                              ps st))))%nat).
Proof.
  intros Hc Htotal Hps Hpages. split.
  - destruct (Z.eq_dec total 0) as [->|Hne].
    + exists [], s1. split; [|simpl; lia].
      intros fuel _. unfold query_with_pagination. rewrite Hc. reflexivity.
    + destruct (pagination_from_count districts start_date end_date ps total s s1 Hc)
        as (n & st' & Hrun & _ & _ & Hrec & Hlt & _); [exact Hne | exact Hps |].
      simpl in Hrec, Hlt.
      exists (all_records st'), (sess st'). split; [exact Hrun|].
      destruct n as [|m]; [rewrite Hrec; simpl; lia|].
      set (n := S m) in *.
      assert (Hs1 : s1 = log_request s
                           (count_request (build_where_clause districts start_date end_date))).
      { pose proof (get_total_count_session
                      (build_where_clause districts start_date end_date) s) as E.
        rewrite Hc in E. exact E. }
      rewrite Hrec.
      etrans; [apply (flat_map_length_bound _ _ ps)|].
      * intros i. unfold items_at.
        destruct (verdict_at s1 _) as [items| |e] eqn:Ev; simpl; try lia.
        rewrite (verdict_at_replies s s1) in Ev by (subst s1; reflexivity).
        eapply Hpages; [|exact Ev].
        subst s1. cbn [log_request sent]. rewrite length_app. simpl. lia.
      * rewrite length_seq. specialize (Hlt (n - 1)%nat ltac:(lia)).
        replace (Z.of_nat n) with (Z.of_nat (n - 1) + 1) by lia. lia.
  - intros st. destruct (loop_body_extends
                           (build_where_clause districts start_date end_date) ps st)
      as (items & ->).
    rewrite length_app. lia.
Qed.

(** C6.  When the count promises more than two pages (as an expected five
    pages do), the first two pages are appended and the request for the
    third one fails: [query_with_pagination] returns, for any fuel of three
    iterations or more, exactly the items of pages 1 and 2 in order; the
    requests of the loop are the three page requests at offsets 0, ps and
    2 ps, so the failed request is not sent again; no exception reaches the
    caller. *)
Theorem query_with_pagination_third_page_fails (districts : list string)
    (start_date end_date : string) (ps total : Z) (s s1 : session)
    (items1 items2 : list pyval) :
  get_total_count (build_where_clause districts start_date end_date) s = (total, s1) ->
  0 < ps ->
  2 * ps < total ->
  verdict_at s1 (length (sent s1)) = PageAppended items1 ->
  verdict_at s1 (length (sent s1) + 1) = PageAppended items2 ->
  is_failed (verdict_at s1 (length (sent s1) + 2)) ->
  exists s2 : session,
    (forall fuel, (3 <= fuel)%nat ->
       query_with_pagination fuel districts start_date end_date ps s
       = Some (items1 ++ items2, s2))
    /\ sent s2 = sent s1 ++
         [page_request (build_where_clause districts start_date end_date) ps 0;
          page_request (build_where_clause districts start_date end_date) ps ps;
          page_request (build_where_clause districts start_date end_date) ps (2 * ps)].
Proof.
  intros Hc Hps Htotal Hv1 Hv2 Hv3.
  set (w := build_where_clause districts start_date end_date) in *.
  exists (log_request (log_request (log_request s1 (page_request w ps 0))
                         (page_request w ps (0 + ps))) (page_request w ps (0 + ps + ps))).
  split.
  - intros fuel Hfuel.
    rewrite (query_with_pagination_loop fuel _ _ _ ps total s s1 Hc) by lia. fold w.
    destruct fuel as [|[|[|fuel]]]; try lia.
    unfold verdict_at in Hv1, Hv2, Hv3.
    cbn [pagination_loop offset].
    destruct (0 <? total) eqn:E0; [|lia].
    rewrite loop_body_verdict. unfold verdict_at.
    cbn [sess all_records offset page]. rewrite Hv1.
    cbn [offset]. destruct (0 + ps <? total) eqn:E1; [|lia].
    rewrite loop_body_verdict. unfold verdict_at.
    cbn [sess all_records offset page log_request sent replies].
    rewrite length_app. cbn [length]. rewrite Hv2.
    cbn [offset]. destruct (0 + ps + ps <? total) eqn:E2; [|lia].
    rewrite loop_body_verdict. unfold verdict_at.
    cbn [sess all_records offset page log_request sent replies].
    rewrite !length_app. cbn [length]. rewrite <- Nat.add_assoc. cbn [Nat.add].
    destruct (page_of_response (result_of_outcome (replies s1 (length (sent s1) + 2))))
      as [items| |e]; [destruct Hv3| |]; reflexivity.
  - cbn [log_request sent]. rewrite <- !app_assoc. cbn [app].
    replace (0 + ps + ps) with (2 * ps) by lia. replace (0 + ps) with ps by lia.
    reflexivity.
Qed.

End PaginationFacts.

(** ** Fetcher: runs on concrete sessions *)

Lemma get_total_count_result_witness :
  fst (get_total_count (H := example_builtins) WHERE (scripted [TransportError])) = 0
  /\ fst (get_total_count (H := example_builtins) WHERE (scripted [HttpResponse 404 None])) = 0
  /\ fst (get_total_count (H := example_builtins) WHERE (scripted [count_reply "abc"])) = 0
  /\ fst (get_total_count (H := example_builtins) WHERE (scripted [count_reply "1234"])) = 1234.
Proof.
  split; [|split; [|split]].
  - apply (get_total_count_result (H := example_builtins) WHERE (scripted [TransportError])).
    reflexivity.
  - apply (proj1 (proj2 (get_total_count_result (H := example_builtins) WHERE
                           (scripted [HttpResponse 404 None]))) 404 None);
      [reflexivity | lia].
  - apply (proj1 (proj2 (proj2 (proj2
             (get_total_count_result (H := example_builtins) WHERE
                (scripted [count_reply "abc"])))))
             200 (PyList [PyDict [("count", PyStr "abc")]]) ValueError);
      reflexivity.
  - apply (proj1 (proj2 (proj2 (proj2 (proj2
             (get_total_count_result (H := example_builtins) WHERE
                (scripted [count_reply "1234"]))))))
             200 (PyList [PyDict [("count", PyStr "1234")]]) 1234);
      [reflexivity | lia | reflexivity].
Defined.

(** C4 as stated fails for a status that is neither 2xx nor 4xx/5xx: a
    response with status 300 and the body [[{"count": "5"}]] makes
    [get_total_count] return 5, not 0. *)
Lemma get_total_count_status_300 :
  replies count_with_status_300 0
    = HttpResponse 300 (Some (PyList [PyDict [("count", PyStr "5")]]))
  /\ ~ (200 <= 300 < 300)
  /\ fst (get_total_count (H := example_builtins) WHERE count_with_status_300) = 5
  /\ fst (get_total_count (H := example_builtins) WHERE count_with_status_300) <> 0.
Proof.
  split; [reflexivity|]. split; [lia|]. split; [reflexivity|].
  vm_compute. discriminate.
Qed.

Lemma query_with_pagination_zero_count_witness :
  exists s1,
    query_with_pagination (H := example_builtins) 0 DISTRICTS START_DATE END_DATE 1000
      (scripted [count_reply "0"]) = Some ([], s1)
    /\ sent s1 = sent (scripted [count_reply "0"]) ++ [count_request WHERE]
    /\ replies s1 = replies (scripted [count_reply "0"]).
Proof.
  apply (query_with_pagination_zero_count (H := example_builtins) 0 DISTRICTS
           START_DATE END_DATE 1000 (scripted [count_reply "0"])).
  reflexivity.
Defined.

Lemma query_with_pagination_run_witness :
  exists (n : nat) (records : list pyval) (s2 : session),
    (forall fuel, (Z.to_nat 4 <= fuel)%nat ->
       query_with_pagination (H := example_builtins) fuel DISTRICTS START_DATE END_DATE 2
         short_pages = Some (records, s2))
    /\ (1 <= n)%nat
    /\ sent s2 = sent (log_request short_pages (count_request WHERE)) ++
         map (fun i => page_request WHERE 2 (Z.of_nat i * 2)) (seq 0 n)
    /\ records = flat_map (fun i => items_at (log_request short_pages (count_request WHERE))
                                     (length (sent (log_request short_pages
                                                      (count_request WHERE))) + i))
                   (seq 0 n)
    /\ (forall i, (i < n)%nat -> Z.of_nat i * 2 < 4)
    /\ (forall i, (S i < n)%nat ->
          is_appended (verdict_at (log_request short_pages (count_request WHERE))
                         (length (sent (log_request short_pages (count_request WHERE))) + i)))
    /\ ((is_appended (verdict_at (log_request short_pages (count_request WHERE))
                        (length (sent (log_request short_pages (count_request WHERE)))
                         + (n - 1)))
         /\ 4 <= Z.of_nat n * 2)
        \/ verdict_at (log_request short_pages (count_request WHERE))
             (length (sent (log_request short_pages (count_request WHERE))) + (n - 1))
           = PageEmpty
        \/ is_failed (verdict_at (log_request short_pages (count_request WHERE))
                        (length (sent (log_request short_pages (count_request WHERE)))
                         + (n - 1)))).
Proof.
  apply (query_with_pagination_run (H := example_builtins) DISTRICTS START_DATE END_DATE
           2 4 short_pages (log_request short_pages (count_request WHERE)));
    [reflexivity | lia | lia].
Defined.

(** C1 as stated fails on [short_pages]: the loop stops after the second
    page although the three records accumulated are fewer than the count of
    4, the second page was not empty and no request failed. *)
Lemma pagination_stops_below_total :
  fst (get_total_count (H := example_builtins) WHERE short_pages) = 4
  /\ option_map fst
       (query_with_pagination (H := example_builtins) 4 DISTRICTS START_DATE END_DATE 2
          short_pages)
     = Some [rec_id 1; rec_id 2; rec_id 3]
  /\ option_map (fun r => sent (snd r))
       (query_with_pagination (H := example_builtins) 4 DISTRICTS START_DATE END_DATE 2
          short_pages)
     = Some [count_request WHERE; page_request WHERE 2 0; page_request WHERE 2 2]
  /\ ~ (4 <= Z.of_nat (length [rec_id 1; rec_id 2; rec_id 3])
        \/ verdict_at short_pages 2 = PageEmpty
        \/ is_failed (verdict_at short_pages 2)).
Proof.
  split; [reflexivity|]. split; [reflexivity|]. split; [reflexivity|].
  intros [Ha|[Hb|Hc]].
  - simpl in Ha. lia.
  - discriminate Hb.
  - exact Hc.
Qed.

Lemma query_with_pagination_length_witness :
  (exists (records : list pyval) (s2 : session),
     (forall fuel, (Z.to_nat 4 <= fuel)%nat ->
        query_with_pagination (H := example_builtins) fuel DISTRICTS START_DATE END_DATE 2
          short_pages = Some (records, s2))
     /\ Z.of_nat (length records) <= 4 + 2)
  /\ (forall st : loop_state,
        (length (all_records st)
         <= length (all_records (snd (loop_body WHERE 2 st))))%nat).
Proof.
  apply (query_with_pagination_length (H := example_builtins) DISTRICTS START_DATE END_DATE
           2 4 short_pages (log_request short_pages (count_request WHERE)));
    [reflexivity | lia | lia |].
  intros [|[|[|[|k]]]] items _ E; vm_compute in E; inversion E; simpl; lia.
Defined.

Lemma query_with_pagination_third_page_fails_witness :
  exists s2 : session,
    (forall fuel, (3 <= fuel)%nat ->
       query_with_pagination (H := example_builtins) fuel DISTRICTS START_DATE END_DATE 1
         third_page_down = Some ([rec_id 1] ++ [rec_id 2], s2))
    /\ sent s2 = sent (log_request third_page_down (count_request WHERE)) ++
         [page_request WHERE 1 0; page_request WHERE 1 1; page_request WHERE 1 (2 * 1)].
Proof.
  apply (query_with_pagination_third_page_fails (H := example_builtins) DISTRICTS
           START_DATE END_DATE 1 5 third_page_down
           (log_request third_page_down (count_request WHERE)) [rec_id 1] [rec_id 2]);
    [reflexivity | lia | lia | reflexivity | reflexivity | exact I].
Defined.

(** ** Orchestration *)

Section MainFacts.
Context `{Builtins}.

Lemma query_with_high_limit_session (districts : list string) (start_date end_date : string)
    (limit : Z) (s : session) :
  snd (query_with_high_limit districts start_date end_date limit s)
  = log_request s (bulk_request (build_where_clause districts start_date end_date) limit).
Proof.
  unfold query_with_high_limit, session_get.
  match goal with |- context [match ?m with Ok _ => _ | Raise _ => _ end] => destruct m end;
    reflexivity.
Qed.

(** Whatever the reply, the value the bulk query returns has a length: a
    body without a length makes the [print] inside the [try] block raise,
    and the method returns the empty list. *)
Lemma query_with_high_limit_has_len (districts : list string) (start_date end_date : string)
    (limit : Z) (s : session) :
  exists n, py_len (fst (query_with_high_limit districts start_date end_date limit s)) = Ok n.
Proof.
  unfold query_with_high_limit, session_get.
  destruct (result_of_outcome _) as [r|e]; simpl; [|by eexists].
  destruct (raise_for_status r); simpl; [|by eexists].
  destruct (response_json r) as [data|e]; simpl; [|by eexists].
  destruct (py_len data) as [n|e] eqn:E; simpl; [|by eexists].
  exists n. exact E.
Qed.

(** C2.  Let [bulk] be what the bulk query with limit 50000 returns.  If
    [bulk] is empty or has exactly 50000 items, [main] drops it and the data
    it goes on with is the list the paginated query returns, run in the
    session left by the bulk query; otherwise the data is [bulk] itself and
    no further request is sent. *)
Theorem main_retrieve_strategy (fuel : nat) (s s1 : session) (bulk : pyval) :
  query_with_high_limit DISTRICTS START_DATE END_DATE 50000 s = (bulk, s1) ->
  (py_truthy bulk = false \/ py_len bulk = Ok 50000 ->
     main_retrieve fuel s
     = ('(records, s2) ← query_with_pagination fuel DISTRICTS START_DATE END_DATE 1000 s1;
        Some (Ok (PyList records), s2)))
  /\ (py_truthy bulk = true -> py_len bulk <> Ok 50000 ->
      main_retrieve fuel s = Some (Ok bulk, s1)).
Proof.
  intros Hq. unfold main_retrieve. rewrite Hq.
  destruct (query_with_high_limit_has_len DISTRICTS START_DATE END_DATE 50000 s) as [n Hn].
  rewrite Hq in Hn. simpl in Hn. rewrite Hn. simpl.
  split.
  - intros [Hf|Hl].
    + rewrite Hf. reflexivity.
    + assert (n = 50000) as -> by congruence.
      destruct (py_truthy bulk); reflexivity.
  - intros Ht Hl. rewrite Ht. simpl.
    destruct (n =? 50000) eqn:E; [|reflexivity].
    apply Z.eqb_eq in E. congruence.
Qed.

End MainFacts.

Lemma main_retrieve_strategy_witness :
  (py_truthy (PyList []) = false \/ py_len (PyList []) = Ok 50000 ->
     main_retrieve (H := example_builtins) 3 (scripted [TransportError; count_reply "0"])
     = ('(records, s2) ← query_with_pagination (H := example_builtins) 3 DISTRICTS
                           START_DATE END_DATE 1000
                           (log_request (scripted [TransportError; count_reply "0"])
                              (bulk_request WHERE 50000));
        Some (Ok (PyList records), s2)))
  /\ (py_truthy (PyList []) = true -> py_len (PyList []) <> Ok 50000 ->
      main_retrieve (H := example_builtins) 3 (scripted [TransportError; count_reply "0"])
      = Some (Ok (PyList []),
              log_request (scripted [TransportError; count_reply "0"])
                (bulk_request WHERE 50000))).
Proof.
  apply (main_retrieve_strategy (H := example_builtins) 3
           (scripted [TransportError; count_reply "0"])
           (log_request (scripted [TransportError; count_reply "0"])
              (bulk_request WHERE 50000))
           (PyList [])).
  reflexivity.
Defined.

(** A bulk result of exactly 50000 records is dropped: the data of [main]
    are the three records of the paginated query. *)
Lemma main_retrieve_bulk_at_limit :
  py_len (fst (query_with_high_limit DISTRICTS START_DATE END_DATE 50000 bulk_at_limit))
    = Ok 50000
  /\ option_map fst (main_retrieve (H := example_builtins) 3 bulk_at_limit)
     = Some (Ok (PyList [rec_id 1; rec_id 2; rec_id 3])).
Proof. split; vm_compute; reflexivity. Qed.

(** ** Exporter *)

Lemma collect_keys_spec (records : list pyval) (acc : gset string) :
  Forall is_record records ->
  exists all_keys,
    collect_keys records acc = Ok all_keys
    /\ forall k, k ∈ all_keys <->
         k ∈ acc \/ exists items, PyDict items ∈ records /\ k ∈ map fst items.
Proof.
  intros Hrec. revert acc. induction Hrec as [|r records Hr _ IH]; intros acc.
  - exists acc. split; [reflexivity|]. intros k. split; [auto|].
    intros [Hk|(items & Hin & _)]; [exact Hk|]. by apply elem_of_nil in Hin.
  - destruct r as [| | | | |?|items]; try destruct Hr.
    destruct (IH (acc ∪ list_to_set (map fst items))) as (all_keys & Hc & Hk).
    exists all_keys. split; [exact Hc|]. intros k. rewrite Hk, elem_of_union,
      elem_of_list_to_set. split.
    + intros [[Ha|Hi]|(items' & Hin & Hi)]; [by left| |].
      * right. exists items. split; [apply list_elem_of_here | exact Hi].
      * right. exists items'. split; [by apply list_elem_of_further | exact Hi].
    + intros [Ha|(items' & Hin & Hi)]; [by left; left|].
      apply elem_of_cons in Hin as [E|Hin].
      * injection E as ->. left; right. exact Hi.
      * right. exists items'. split; assumption.
Qed.

Lemma sorted_keys_elem_of (all_keys : gset string) (k : string) :
  k ∈ sorted_keys all_keys <-> k ∈ all_keys.
Proof.
  unfold sorted_keys. rewrite merge_sort_Permutation. apply elem_of_elements.
Qed.

Lemma sorted_keys_sorted (all_keys : gset string) :
  Sorted String.le (sorted_keys all_keys).
Proof. apply Sorted_merge_sort, _. Qed.

Lemma sorted_keys_NoDup (all_keys : gset string) : NoDup (sorted_keys all_keys).
Proof. unfold sorted_keys. rewrite merge_sort_Permutation. apply NoDup_elements. Qed.

Lemma wrong_fields_nil (fieldnames : list string) (rowdict : list (string * pyval)) :
  (forall k, k ∈ map fst rowdict -> k ∈ fieldnames) ->
  wrong_fields fieldnames rowdict = [].
Proof.
  intros Hsub. unfold wrong_fields.
  destruct (filter _ _) as [|k l] eqn:E; [reflexivity|].
  assert (Hk : k ∈ filter (fun k => k ∉ fieldnames) (map fst rowdict))
    by (rewrite E; apply list_elem_of_here).
  apply list_elem_of_filter in Hk as [Hnot Hin]. destruct (Hnot (Hsub k Hin)).
Qed.

Lemma fs_write_line_fault (fs fs' : filesystem) (path : string) (k : nat) (line : string)
    (r : result unit) :
  fs_write_line fs path k line = (r, fs') -> fault fs' = fault fs.
Proof.
  unfold fs_write_line. destruct (fault fs path) as [| |n]; try (intros [= <- <-]; reflexivity).
  destruct (n =? k)%nat; intros [= <- <-]; reflexivity.
Qed.

Lemma fs_write_line_exn (fs fs' : filesystem) (path : string) (k : nat) (line : string)
    (e : exn) :
  fs_write_line fs path k line = (Raise e, fs') -> e = OSError.
Proof.
  unfold fs_write_line. destruct (fault fs path) as [| |n]; try discriminate.
  destruct (n =? k)%nat; [|discriminate]. by intros [= <- <-].
Qed.

Lemma fs_write_line_no_fault (fs : filesystem) (path : string) (k : nat) (line : string) :
  fault fs path = NoFault ->
  fs_write_line fs path k line
  = (Ok tt, {| files := <[path := file_content fs path +:+ line]> (files fs);
               fault := fault fs |}).
Proof. unfold fs_write_line. intros ->. reflexivity. Qed.

Section ExporterFacts.
Context `{Builtins}.

(** C9.  For the empty record list [save_to_csv] returns [False] and leaves
    the file system as it was: no file is opened, created or changed. *)
Theorem save_to_csv_empty (filename : string) (fs : filesystem) :
  save_to_csv (PyList []) filename fs = (Ok false, fs).
Proof. reflexivity. Qed.

Lemma writerow_exn (fieldnames : list string) (path : string) (k : nat)
    (items : list (string * pyval)) (fs fs' : filesystem) (e : exn) :
  wrong_fields fieldnames items = [] ->
  writerow fieldnames path k (PyDict items) fs = (Raise e, fs') -> e = OSError.
Proof.
  intros Hw. unfold writerow, dict_to_list. rewrite Hw. apply fs_write_line_exn.
Qed.

Lemma writerow_no_fault (fieldnames : list string) (path : string) (k : nat)
    (items : list (string * pyval)) (fs : filesystem) :
  wrong_fields fieldnames items = [] ->
  fault fs path = NoFault ->
  exists fs', writerow fieldnames path k (PyDict items) fs = (Ok tt, fs')
              /\ fault fs' = fault fs.
Proof.
  intros Hw Hf. unfold writerow, dict_to_list. rewrite Hw.
  rewrite fs_write_line_no_fault by exact Hf. eexists. split; reflexivity.
Qed.

Lemma write_records_exn (fieldnames : list string) (path : string) (records : list pyval) :
  (forall items, PyDict items ∈ records -> wrong_fields fieldnames items = []) ->
  Forall is_record records ->
  forall k fs fs' e,
    write_records fieldnames path k records fs = (Raise e, fs') -> e = OSError.
Proof.
  intros Hw Hrec. induction Hrec as [|r records Hr _ IH]; intros k fs fs' e; simpl.
  - discriminate.
  - destruct r as [| | | | |?|items]; try destruct Hr.
    destruct (writerow fieldnames path k (PyDict items) fs) as [[[]|e1] fs1] eqn:E.
    + apply IH. intros items' Hin. apply Hw. by apply list_elem_of_further.
    + intros [= <- <-]. eapply writerow_exn; [|exact E]. apply Hw, list_elem_of_here.
Qed.

Lemma write_records_no_fault (fieldnames : list string) (path : string)
    (records : list pyval) :
  (forall items, PyDict items ∈ records -> wrong_fields fieldnames items = []) ->
  Forall is_record records ->
  forall k fs, fault fs path = NoFault ->
    fst (write_records fieldnames path k records fs) = Ok tt.
Proof.
  intros Hw Hrec. induction Hrec as [|r records Hr _ IH]; intros k fs Hf; simpl.
  - reflexivity.
  - destruct r as [| | | | |?|items]; try destruct Hr.
    destruct (writerow_no_fault fieldnames path k items fs) as (fs1 & -> & Hf1);
      [apply Hw, list_elem_of_here | exact Hf |].
    apply IH; [|congruence]. intros items' Hin. apply Hw. by apply list_elem_of_further.
Qed.

Lemma header_wrong_fields (fieldnames : list string) :
  wrong_fields fieldnames (map (fun k => (k, PyStr k)) fieldnames) = [].
Proof.
  apply wrong_fields_nil. intros k Hk. rewrite map_map in Hk. simpl in Hk.
  by rewrite map_id in Hk.
Qed.

(** C10.  For a non-empty list of records, the field names [save_to_csv]
    hands to the writer are the keys of all records, sorted and without
    repetition; so no record has a key outside the field names, the check of
    the writer for unexpected fields finds nothing for any record, the only
    exception the [try] block can see is an I/O error, and on a path without
    I/O fault the method returns [True]. *)
Theorem save_to_csv_no_extra_fields (records : list pyval) :
  records <> [] ->
  Forall is_record records ->
  exists all_keys : gset string,
    collect_keys records ∅ = Ok all_keys
    /\ (forall k, k ∈ sorted_keys all_keys <->
          exists items, PyDict items ∈ records /\ k ∈ map fst items)
    /\ Sorted String.le (sorted_keys all_keys)
    /\ NoDup (sorted_keys all_keys)
    /\ (forall items, PyDict items ∈ records ->
          wrong_fields (sorted_keys all_keys) items = []
          /\ is_ok (dict_to_list (sorted_keys all_keys) items) = true)
    /\ (forall filename fs e fs',
          write_csv (sorted_keys all_keys) records filename fs = (Raise e, fs') ->
          e = OSError)
    /\ (forall filename fs, fault fs filename = NoFault ->
          fst (save_to_csv (PyList records) filename fs) = Ok true).
Proof.
  intros Hne Hrec.
  destruct (collect_keys_spec records ∅ Hrec) as (all_keys & Hc & Hk).
  assert (Hmem : forall k, k ∈ sorted_keys all_keys <->
                   exists items, PyDict items ∈ records /\ k ∈ map fst items).
  { intros k. rewrite sorted_keys_elem_of, Hk. split; [|by right].
    intros [Hk0|Hex]; [|exact Hex]. by apply not_elem_of_empty in Hk0. }
  assert (Hw : forall items, PyDict items ∈ records ->
                 wrong_fields (sorted_keys all_keys) items = []).
  { intros items Hin. apply wrong_fields_nil. intros k Hkin. apply Hmem. by exists items. }
  exists all_keys. split; [exact Hc|]. split; [exact Hmem|].
  split; [apply sorted_keys_sorted|]. split; [apply sorted_keys_NoDup|].
  split; [|split].
  - intros items Hin. split; [by apply Hw|].
    unfold dict_to_list. by rewrite (Hw items Hin).
  - intros filename fs e fs'. unfold write_csv, fs_open_w.
    destruct (fault fs filename) eqn:Ef.
    + unfold writeheader.
      destruct (writerow _ _ 0%nat _ _) as [[[]|e1] fs1] eqn:E.
      * apply write_records_exn; assumption.
      * intros [= <- <-]. eapply writerow_exn; [apply header_wrong_fields | exact E].
    + by intros [= <- <-].
    + unfold writeheader.
      destruct (writerow _ _ 0%nat _ _) as [[[]|e1] fs1] eqn:E.
      * apply write_records_exn; assumption.
      * intros [= <- <-]. eapply writerow_exn; [apply header_wrong_fields | exact E].
  - intros filename fs Hf. unfold save_to_csv.
    destruct records as [|r records]; [congruence|].
    cbn [py_truthy length Nat.eqb negb py_iter mbind result_bind]. rewrite Hc.
    unfold mbind, result_bind. cbv beta iota.
    unfold write_csv, fs_open_w. rewrite Hf. cbv beta iota. unfold writeheader.
    destruct (writerow_no_fault (sorted_keys all_keys) filename 0%nat
                (map (fun k => (k, PyStr k)) (sorted_keys all_keys))
                {| files := <[filename := EmptyString]> (files fs); fault := fault fs |})
      as (fs1 & -> & Hf1); [apply header_wrong_fields | exact Hf |].
    pose proof (write_records_no_fault (sorted_keys all_keys) filename (r :: records) Hw Hrec
                  1%nat fs1 ltac:(simpl in Hf1; congruence)) as Hok.
    destruct (write_records _ _ _ _ _) as [[[]|e] fs2]; simpl in Hok; [reflexivity|discriminate].
Qed.

End ExporterFacts.

Section SparseExport.
Context `{Builtins}.

Lemma sparse_fieldnames :
  sorted_keys ((∅ ∪ list_to_set ["a"; "b"]) ∪ list_to_set ["a"]) = ["a"; "b"].
Proof. vm_compute. reflexivity. Qed.

(** C8.  On a path without I/O fault, [save_to_csv] of the records
    [{"a": "1", "b": "2"}] and [{"a": "3"}] returns [True] and leaves in the
    file the header [a,b] (the sorted union of the keys) and the rows [1,2]
    and [3,], the missing key giving an empty last field; each line ends
    with the line terminator of the writer. *)
Theorem save_to_csv_sparse (filename : string) (fs : filesystem) :
  fault fs filename = NoFault ->
  save_to_csv sparse_records filename fs
  = (Ok true, {| files := <[filename := sparse_csv]> (files fs); fault := fault fs |}).
Proof.
  intros Hf. unfold save_to_csv, sparse_records.
  cbn [py_truthy length Nat.eqb negb py_iter collect_keys map fst].
  unfold mbind, result_bind. cbv beta iota.
  change (collect_keys [PyDict [("a", PyStr "1"); ("b", PyStr "2")]; PyDict [("a", PyStr "3")]] ∅)
    with (Ok ((∅ ∪ list_to_set ["a"; "b"]) ∪ list_to_set ["a"] : gset string)).
  cbv beta iota. rewrite sparse_fieldnames.
  unfold write_csv, fs_open_w. rewrite Hf. cbv beta iota.
  unfold writeheader, writerow.
  change (dict_to_list ["a"; "b"] (map (fun k => (k, PyStr k)) ["a"; "b"]))
    with (Ok [PyStr "a"; PyStr "b"]).
  cbv beta iota. rewrite fs_write_line_no_fault by exact Hf.
  cbn [write_records writerow].
  change (dict_to_list ["a"; "b"] [("a", PyStr "1"); ("b", PyStr "2")])
    with (Ok [PyStr "1"; PyStr "2"]).
  cbv beta iota. rewrite fs_write_line_no_fault by exact Hf.
  change (dict_to_list ["a"; "b"] [("a", PyStr "3")])
    with (Ok [PyStr "3"; PyStr EmptyString]).
  cbv beta iota. rewrite fs_write_line_no_fault by exact Hf.
  unfold file_content. cbn [files fault].
  rewrite !lookup_insert_eq, !insert_insert_eq. reflexivity.
Qed.

End SparseExport.

Lemma save_to_csv_sparse_witness :
  save_to_csv (H := example_builtins) sparse_records OUTPUT_FILE empty_fs
  = (Ok true, {| files := <[OUTPUT_FILE := sparse_csv]> (files empty_fs);
                 fault := fault empty_fs |}).
Proof.
  apply (save_to_csv_sparse (H := example_builtins) OUTPUT_FILE empty_fs).
  reflexivity.
Defined.

Lemma save_to_csv_no_extra_fields_witness :
  exists all_keys : gset string,
    collect_keys [PyDict [("a", PyStr "1"); ("b", PyStr "2")]; PyDict [("a", PyStr "3")]] ∅
      = Ok all_keys
    /\ (forall k, k ∈ sorted_keys all_keys <->
          exists items,
            PyDict items ∈ [PyDict [("a", PyStr "1"); ("b", PyStr "2")];
                            PyDict [("a", PyStr "3")]]
            /\ k ∈ map fst items)
    /\ Sorted String.le (sorted_keys all_keys)
    /\ NoDup (sorted_keys all_keys)
    /\ (forall items,
          PyDict items ∈ [PyDict [("a", PyStr "1"); ("b", PyStr "2")];
                          PyDict [("a", PyStr "3")]] ->
          wrong_fields (sorted_keys all_keys) items = []
          /\ is_ok (dict_to_list (sorted_keys all_keys) items) = true)
    /\ (forall filename fs e fs',
          write_csv (H := example_builtins) (sorted_keys all_keys)
            [PyDict [("a", PyStr "1"); ("b", PyStr "2")]; PyDict [("a", PyStr "3")]]
            filename fs = (Raise e, fs') ->
          e = OSError)
    /\ (forall filename fs, fault fs filename = NoFault ->
          fst (save_to_csv (H := example_builtins)
                 (PyList [PyDict [("a", PyStr "1"); ("b", PyStr "2")];
                          PyDict [("a", PyStr "3")]]) filename fs) = Ok true).
Proof.
  apply (save_to_csv_no_extra_fields (H := example_builtins)
           [PyDict [("a", PyStr "1"); ("b", PyStr "2")]; PyDict [("a", PyStr "3")]]).
  - discriminate.
  - repeat constructor.
Defined.

(** * Further properties *)

(** ** Fetcher: the bulk query *)

(** X1.  [query_with_high_limit] sends one request and never raises.  It
    returns the empty list when the request raises, when the status is a 4xx
    or 5xx one, when the body is not JSON and when the decoded body has no
    length (the [print] of [len(data)] raises inside the [try] block);
    otherwise it returns the decoded body as it is. *)
Theorem query_with_high_limit_result (districts : list string) (start_date end_date : string)
    (limit : Z) (s : session) :
  (replies s (length (sent s)) = TransportError ->
     fst (query_with_high_limit districts start_date end_date limit s) = PyList [])
  /\ (forall st body, replies s (length (sent s)) = HttpResponse st body ->
        400 <= st < 600 ->
        fst (query_with_high_limit districts start_date end_date limit s) = PyList [])
  /\ (forall st, replies s (length (sent s)) = HttpResponse st None ->
        fst (query_with_high_limit districts start_date end_date limit s) = PyList [])
  /\ (forall st data e, replies s (length (sent s)) = HttpResponse st (Some data) ->
        py_len data = Raise e ->
        fst (query_with_high_limit districts start_date end_date limit s) = PyList [])
  /\ (forall st data n, replies s (length (sent s)) = HttpResponse st (Some data) ->
        ~ (400 <= st < 600) -> py_len data = Ok n ->
        fst (query_with_high_limit districts start_date end_date limit s) = data)
  /\ sent (snd (query_with_high_limit districts start_date end_date limit s))
     = sent s ++ [bulk_request (build_where_clause districts start_date end_date) limit].
Proof.
  rewrite query_with_high_limit_session.
  unfold query_with_high_limit, session_get.
  repeat split.
  - intros ->. reflexivity.
  - intros st body -> Hst. simpl. rewrite raise_for_status_error by exact Hst. reflexivity.
  - intros st ->. simpl. destruct (raise_for_status _); reflexivity.
  - intros st data e -> He. simpl. destruct (raise_for_status _); simpl; [|reflexivity].
    unfold response_json. simpl. rewrite He. reflexivity.
  - intros st data n -> Hst Hn. simpl. rewrite raise_for_status_pass by exact Hst. simpl.
    unfold response_json. simpl. rewrite Hn. reflexivity.
Qed.

Lemma query_with_high_limit_result_witness :
  fst (query_with_high_limit DISTRICTS START_DATE END_DATE 50000
         (scripted [ok_json (PyInt 5)])) = PyList []
  /\ fst (query_with_high_limit DISTRICTS START_DATE END_DATE 50000 bulk_sparse)
     = sparse_records.
Proof.
  split.
  - apply (proj1 (proj2 (proj2 (proj2
             (query_with_high_limit_result DISTRICTS START_DATE END_DATE 50000
                (scripted [ok_json (PyInt 5)])))))
             200 (PyInt 5) TypeError); reflexivity.
  - apply (proj1 (proj2 (proj2 (proj2 (proj2
             (query_with_high_limit_result DISTRICTS START_DATE END_DATE 50000
                bulk_sparse)))))
             200 sparse_records 2); [reflexivity | lia | reflexivity].
Defined.

(** ** Fetcher: more on the paginated query *)

Section PaginationMore.
Context `{Builtins}.

Lemma get_total_count_log (w : string) (s s1 : session) (total : Z) :
  get_total_count w s = (total, s1) -> s1 = log_request s (count_request w).
Proof. intros Hc. pose proof (get_total_count_session w s) as E. by rewrite Hc in E. Qed.

Lemma seq_0_S (n : nat) : seq 0 (S n) = seq 0 n ++ [n].
Proof. rewrite seq_S. reflexivity. Qed.

(** X2.  For a positive count and a positive page size, the call sends at
    most one page request per page needed to hold [total] records: after
    the count request, at most [ceil (total / ps)] requests. *)
Theorem query_with_pagination_request_bound (districts : list string)
    (start_date end_date : string) (ps total : Z) (s s1 : session) :
  get_total_count (build_where_clause districts start_date end_date) s = (total, s1) ->
  0 < total ->
  0 < ps ->
  exists (records : list pyval) (s2 : session),
    (forall fuel, (Z.to_nat total <= fuel)%nat ->
       query_with_pagination fuel districts start_date end_date ps s = Some (records, s2))
    /\ Z.of_nat (length (sent s2))
       <= Z.of_nat (length (sent s)) + 1 + (total + ps - 1) / ps.
Proof.
  intros Hc Htotal Hps.
  destruct (pagination_from_count districts start_date end_date ps total s s1 Hc)
    as (n & st' & Hrun & Hspec); [lia | exact Hps |].
  destruct Hspec as (_ & Hsent & _ & Hlt & _ & _). simpl in Hsent, Hlt.
  exists (all_records st'), (sess st'). split; [exact Hrun|].
  rewrite Hsent, (get_total_count_log _ _ _ _ Hc). cbn [log_request sent].
  rewrite !length_app, length_map, length_seq. cbn [length].
  assert (Z.of_nat n <= (total + ps - 1) / ps); [|lia].
  apply Z.div_le_lower_bound; [exact Hps|].
  destruct n as [|m]; [lia|]. specialize (Hlt m ltac:(lia)). lia.
Qed.

(** X3.  For a positive count and a positive page size, when every page
    requested below the total is appended (no failure, no empty page), the
    call requests exactly the [pages_needed total ps] pages and returns
    their items in request order. *)
Theorem query_with_pagination_complete (districts : list string)
    (start_date end_date : string) (ps total : Z) (s s1 : session) :
  get_total_count (build_where_clause districts start_date end_date) s = (total, s1) ->
  0 < total ->
  0 < ps ->
  (forall i, Z.of_nat i * ps < total ->
     is_appended (verdict_at s1 (length (sent s1) + i))) ->
  exists s2 : session,
    (forall fuel, (Z.to_nat total <= fuel)%nat ->
       query_with_pagination fuel districts start_date end_date ps s
       = Some (flat_map (fun i => items_at s1 (length (sent s1) + i))
                 (seq 0 (pages_needed total ps)), s2))
    /\ sent s2 = sent s1 ++
         map (fun i => page_request (build_where_clause districts start_date end_date) ps
                         (Z.of_nat i * ps)) (seq 0 (pages_needed total ps)).
Proof.
  intros Hc Htotal Hps Hall.
  destruct (pagination_from_count districts start_date end_date ps total s s1 Hc)
    as (n & st' & Hrun & Hspec); [lia | exact Hps |].
  destruct Hspec as (_ & Hsent & Hrec & Hlt & _ & Hstop).
  simpl in Hsent, Hrec, Hlt, Hstop.
  destruct n as [|m]; [lia|].
  assert (Hge : total <= Z.of_nat (S m) * ps).
  { pose proof (Hall m (Hlt m ltac:(lia))) as Ha.
    destruct Hstop as [[_ Hge]|[He|Hf]]; [exact Hge| |].
    - rewrite He in Ha. destruct Ha.
    - destruct (verdict_at s1 (length (sent s1) + m)); simpl in Ha, Hf; contradiction. }
  assert (Hn : pages_needed total ps = S m).
  { unfold pages_needed. specialize (Hlt m ltac:(lia)).
    rewrite <- (Z.div_unique (total + ps - 1) ps (Z.of_nat (S m))
                  (total + ps - 1 - ps * Z.of_nat (S m))); [lia | lia | lia]. }
  rewrite Hn. exists (sess st'). split; [|exact Hsent].
  intros fuel Hfuel. rewrite (Hrun fuel Hfuel), Hrec. reflexivity.
Qed.

(** X4.  For a positive count and a positive page size, when the pages
    before page [k] are appended and the reply for page [k], requested below
    the total, is empty or a failure: the call returns exactly the items of
    the pages before [k] and sends [k + 1] page requests, none after the one
    that was not appended. *)
Theorem query_with_pagination_first_bad_page (districts : list string)
    (start_date end_date : string) (ps total : Z) (s s1 : session) (k : nat) :
  get_total_count (build_where_clause districts start_date end_date) s = (total, s1) ->
  0 < ps ->
  Z.of_nat k * ps < total ->
  (forall i, (i < k)%nat -> is_appended (verdict_at s1 (length (sent s1) + i))) ->
  ~ is_appended (verdict_at s1 (length (sent s1) + k)) ->
  exists s2 : session,
    (forall fuel, (Z.to_nat total <= fuel)%nat ->
       query_with_pagination fuel districts start_date end_date ps s
       = Some (flat_map (fun i => items_at s1 (length (sent s1) + i)) (seq 0 k), s2))
    /\ sent s2 = sent s1 ++
         map (fun i => page_request (build_where_clause districts start_date end_date) ps
                         (Z.of_nat i * ps)) (seq 0 (S k)).
Proof.
  intros Hc Hps Hk Hbefore Hbad.
  destruct (pagination_from_count districts start_date end_date ps total s s1 Hc)
    as (n & st' & Hrun & Hspec); [lia | exact Hps |].
  destruct Hspec as (_ & Hsent & Hrec & Hlt & Happ & Hstop).
  simpl in Hsent, Hrec, Hlt, Happ, Hstop.
  assert (Hn : n = S k).
  { destruct (Nat.lt_trichotomy n (S k)) as [Hlt'|[E|Hgt]]; [|exact E|].
    - exfalso. destruct n as [|m]; [lia|].
      pose proof (Hbefore m ltac:(lia)) as Ha.
      destruct Hstop as [[_ Hge]|[He|Hf]].
      + assert (Z.of_nat (S m) * ps <= Z.of_nat k * ps) by nia. lia.
      + rewrite He in Ha. destruct Ha.
      + destruct (verdict_at s1 (length (sent s1) + m)); simpl in Ha, Hf; contradiction.
    - exfalso. apply Hbad, Happ. lia. }
  subst n. exists (sess st'). split; [|exact Hsent].
  intros fuel Hfuel. rewrite (Hrun fuel Hfuel), Hrec. f_equal. f_equal.
  rewrite seq_0_S, flat_map_app. simpl. rewrite app_nil_r.
  unfold items_at at 2.
  destruct (verdict_at s1 (length (sent s1) + k)); [destruct Hbad; exact I| |];
    apply app_nil_r.
Qed.

(** X5.  A count below 0 is not 0, so the loop is entered with
    [0 < total_count] false at once: the call returns the empty list for any
    fuel and sends no page request. *)
Theorem query_with_pagination_negative_count (fuel : nat) (districts : list string)
    (start_date end_date : string) (ps total : Z) (s s1 : session) :
  get_total_count (build_where_clause districts start_date end_date) s = (total, s1) ->
  total < 0 ->
  query_with_pagination fuel districts start_date end_date ps s = Some ([], s1)
  /\ sent s1 = sent s ++ [count_request (build_where_clause districts start_date end_date)].
Proof.
  intros Hc Hneg. split.
  - rewrite (query_with_pagination_loop fuel _ _ _ ps total s s1 Hc) by lia.
    destruct fuel; simpl; destruct (0 <? total) eqn:E; try lia; reflexivity.
  - rewrite (get_total_count_log _ _ _ _ Hc). reflexivity.
Qed.

(** With a page size that is not positive the offset never grows. *)
Lemma pagination_loop_stuck (w : string) (ps total : Z) (fuel : nat) (st : loop_state) :
  ps <= 0 ->
  offset st < total ->
  (forall k, (length (sent (sess st)) <= k)%nat -> is_appended (verdict_at (sess st) k)) ->
  pagination_loop fuel w ps total st = None.
Proof.
  intros Hps. revert st. induction fuel as [|fuel IH]; intros st Hoff Hall; simpl.
  - destruct (offset st <? total) eqn:E; [reflexivity|lia].
  - destruct (offset st <? total) eqn:E; [|lia].
    rewrite loop_body_verdict.
    pose proof (Hall (length (sent (sess st))) ltac:(lia)) as Ha.
    destruct (verdict_at (sess st) (length (sent (sess st)))) as [items| |e];
      [|destruct Ha|destruct Ha].
    apply IH; simpl; [lia|].
    intros k Hk. rewrite length_app in Hk. simpl in Hk.
    rewrite (verdict_at_replies (sess st)) by reflexivity. apply Hall. lia.
Qed.

(** X6.  With a page size of 0 or less, a positive count and replies that
    are all non-empty pages, the loop never ends: no amount of fuel makes
    the call return. *)
Theorem query_with_pagination_diverges (districts : list string)
    (start_date end_date : string) (ps total : Z) (s s1 : session) :
  get_total_count (build_where_clause districts start_date end_date) s = (total, s1) ->
  0 < total ->
  ps <= 0 ->
  (forall k, (length (sent s) < k)%nat -> is_appended (verdict_at s k)) ->
  forall fuel, query_with_pagination fuel districts start_date end_date ps s = None.
Proof.
  intros Hc Htotal Hps Hall fuel.
  rewrite (query_with_pagination_loop fuel _ _ _ ps total s s1 Hc) by lia.
  rewrite pagination_loop_stuck; [reflexivity | exact Hps | simpl; lia |].
  simpl. intros k Hk. rewrite (get_total_count_log _ _ _ _ Hc) in Hk |- *.
  cbn [log_request sent] in Hk. rewrite length_app in Hk. simpl in Hk.
  rewrite (verdict_at_replies s) by reflexivity. apply Hall. lia.
Qed.

(** For a positive page size the call returns once the fuel is large
    enough. *)
Lemma query_with_pagination_returns (districts : list string)
    (start_date end_date : string) (ps : Z) (s : session) :
  0 < ps ->
  exists fuel0 out, forall fuel, (fuel0 <= fuel)%nat ->
    query_with_pagination fuel districts start_date end_date ps s = Some out.
Proof.
  intros Hps.
  destruct (get_total_count (build_where_clause districts start_date end_date) s)
    as [total s1] eqn:Hc.
  destruct (Z.lt_trichotomy total 0) as [Hneg|[->|Hpos]].
  - exists 0%nat, ([], s1). intros fuel _.
    rewrite (query_with_pagination_loop fuel _ _ _ ps total s s1 Hc) by lia.
    destruct fuel; simpl; destruct (0 <? total) eqn:E; try lia; reflexivity.
  - exists 0%nat, ([], s1). intros fuel _.
    unfold query_with_pagination. rewrite Hc. reflexivity.
  - destruct (pagination_from_count districts start_date end_date ps total s s1 Hc)
      as (n & st' & Hrun & _); [lia | exact Hps |].
    exists (Z.to_nat total), (all_records st', sess st'). exact Hrun.
Qed.

End PaginationMore.

Lemma query_with_pagination_request_bound_witness :
  exists (records : list pyval) (s2 : session),
    (forall fuel, (Z.to_nat 4 <= fuel)%nat ->
       query_with_pagination (H := example_builtins) fuel DISTRICTS START_DATE END_DATE 2
         short_pages = Some (records, s2))
    /\ Z.of_nat (length (sent s2))
       <= Z.of_nat (length (sent short_pages)) + 1 + (4 + 2 - 1) / 2.
Proof.
  apply (query_with_pagination_request_bound (H := example_builtins) DISTRICTS START_DATE
           END_DATE 2 4 short_pages (log_request short_pages (count_request WHERE)));
    [reflexivity | lia | lia].
Defined.

Lemma query_with_pagination_complete_witness :
  exists s2 : session,
    (forall fuel, (Z.to_nat 5 <= fuel)%nat ->
       query_with_pagination (H := example_builtins) fuel DISTRICTS START_DATE END_DATE 2
         five_records
       = Some (flat_map (fun i => items_at (log_request five_records (count_request WHERE))
                                    (length (sent (log_request five_records
                                                     (count_request WHERE))) + i))
                 (seq 0 (pages_needed 5 2)), s2))
    /\ sent s2 = sent (log_request five_records (count_request WHERE)) ++
         map (fun i => page_request WHERE 2 (Z.of_nat i * 2)) (seq 0 (pages_needed 5 2)).
Proof.
  apply (query_with_pagination_complete (H := example_builtins) DISTRICTS START_DATE
           END_DATE 2 5 five_records (log_request five_records (count_request WHERE)));
    [reflexivity | lia | lia |].
  intros [|[|[|i]]] Hi; [exact I | exact I | exact I | lia].
Defined.

Lemma query_with_pagination_first_bad_page_witness :
  exists s2 : session,
    (forall fuel, (Z.to_nat 5 <= fuel)%nat ->
       query_with_pagination (H := example_builtins) fuel DISTRICTS START_DATE END_DATE 1
         third_page_down
       = Some (flat_map (fun i => items_at (log_request third_page_down (count_request WHERE))
                                    (length (sent (log_request third_page_down
                                                     (count_request WHERE))) + i))
                 (seq 0 2), s2))
    /\ sent s2 = sent (log_request third_page_down (count_request WHERE)) ++
         map (fun i => page_request WHERE 1 (Z.of_nat i * 1)) (seq 0 3).
Proof.
  apply (query_with_pagination_first_bad_page (H := example_builtins) DISTRICTS START_DATE
           END_DATE 1 5 third_page_down
           (log_request third_page_down (count_request WHERE)) 2);
    [reflexivity | lia | lia | | ].
  - intros [|[|i]] Hi; [exact I | exact I | lia].
  - intros Ha. exact Ha.
Defined.

Lemma query_with_pagination_negative_count_witness :
  query_with_pagination (H := example_builtins) 0 DISTRICTS START_DATE END_DATE 1000
    (scripted [count_reply "-3"])
  = Some ([], log_request (scripted [count_reply "-3"]) (count_request WHERE))
  /\ sent (log_request (scripted [count_reply "-3"]) (count_request WHERE))
     = sent (scripted [count_reply "-3"]) ++ [count_request WHERE].
Proof.
  apply (query_with_pagination_negative_count (H := example_builtins) 0 DISTRICTS
           START_DATE END_DATE 1000 (-3) (scripted [count_reply "-3"])
           (log_request (scripted [count_reply "-3"]) (count_request WHERE)));
    [reflexivity | lia].
Defined.

Lemma query_with_pagination_diverges_witness :
  query_with_pagination (H := example_builtins) 25 DISTRICTS START_DATE END_DATE 0
    endless_pages = None.
Proof.
  apply (query_with_pagination_diverges (H := example_builtins) DISTRICTS START_DATE
           END_DATE 0 1 endless_pages (log_request endless_pages (count_request WHERE)));
    [reflexivity | lia | lia |].
  intros [|k] Hk; [simpl in Hk; lia | exact I].
Defined.

(** ** Exporter: the text written *)

Lemma append_nil_r (a : string) : a +:+ EmptyString = a.
Proof. induction a as [|x a IH]; simpl; [reflexivity | f_equal; exact IH]. Qed.

Lemma collect_keys_non_record (records : list pyval) (acc : gset string) :
  Exists (fun r => ~ is_record r) records ->
  collect_keys records acc = Raise AttributeError.
Proof.
  intros Hex. revert acc. induction records as [|r records IH]; intros acc.
  - inversion Hex.
  - destruct r as [| | | | |?|items]; try reflexivity.
    simpl. apply IH. inversion Hex as [? ? Hr|? ? Hrest]; subst; [|exact Hrest].
    destruct Hr. exact I.
Qed.

Section ExporterMore.
Context `{Builtins}.

Lemma header_line (fieldnames : list string) :
  dict_to_list fieldnames (map (fun k => (k, PyStr k)) fieldnames)
  = Ok (map PyStr fieldnames).
Proof.
  unfold dict_to_list. rewrite header_wrong_fields. f_equal.
  assert (Hlook : forall k l, k ∈ l ->
            dict_lookup k (map (fun k => (k, PyStr k)) l) = Some (PyStr k)).
  { intros k l. induction l as [|x l IH]; intros Hk; [by apply elem_of_nil in Hk|].
    simpl. destruct (String.eqb x k) eqn:E.
    - apply String.eqb_eq in E. by subst.
    - apply elem_of_cons in Hk as [->|Hk]; [by rewrite String.eqb_refl in E | by apply IH]. }
  apply map_ext_in. intros k Hk. apply list_elem_of_In in Hk. by rewrite Hlook.
Qed.

(** On an open file without fault, the records are appended line by
    line. *)
Lemma write_records_content (fieldnames : list string) (path : string)
    (records : list pyval) :
  (forall items, PyDict items ∈ records -> wrong_fields fieldnames items = []) ->
  Forall is_record records ->
  forall k fs c,
    fault fs path = NoFault ->
    files fs !! path = Some c ->
    write_records fieldnames path k records fs
    = (Ok tt,
       {| files := <[path := c +:+ foldr (fun record rest =>
                                            record_line fieldnames record +:+ rest)
                                     EmptyString records]> (files fs);
          fault := fault fs |}).
Proof.
  intros Hw Hrec. induction Hrec as [|r records Hr _ IH]; intros k fs c Hf Hc.
  - simpl. rewrite append_nil_r, insert_id by exact Hc. by destruct fs.
  - destruct r as [| | | | |?|items]; try destruct Hr.
    cbn [write_records writerow]. unfold dict_to_list.
    rewrite (Hw items) by apply list_elem_of_here.
    rewrite fs_write_line_no_fault by exact Hf.
    rewrite (IH ltac:(intros items' Hin; apply Hw; by apply list_elem_of_further)
               (S k) _ (c +:+ record_line fieldnames (PyDict items))).
    + cbn [files fault foldr]. rewrite insert_insert_eq, append_assoc. reflexivity.
    + exact Hf.
    + cbn [files]. unfold file_content. rewrite Hc. apply lookup_insert_eq.
Qed.

(** The [try] block on a path without fault: the file is created or
    truncated and receives the header and the records. *)
Lemma write_csv_content (fieldnames : list string) (records : list pyval)
    (filename : string) (fs : filesystem) :
  (forall items, PyDict items ∈ records -> wrong_fields fieldnames items = []) ->
  Forall is_record records ->
  fault fs filename = NoFault ->
  write_csv fieldnames records filename fs
  = (Ok tt, {| files := <[filename := csv_text fieldnames records]> (files fs);
               fault := fault fs |}).
Proof.
  intros Hw Hrec Hf. unfold write_csv, fs_open_w. rewrite Hf. cbv beta iota.
  unfold writeheader, writerow. rewrite header_line. cbv beta iota.
  rewrite fs_write_line_no_fault by exact Hf.
  rewrite (write_records_content fieldnames filename records Hw Hrec 1%nat _
             (csv_format_row (map PyStr fieldnames))).
  - cbn [files fault]. rewrite !insert_insert_eq. reflexivity.
  - exact Hf.
  - cbn [files]. unfold file_content. cbn [files]. rewrite !lookup_insert_eq. reflexivity.
Qed.

Lemma save_to_csv_unfold (r : pyval) (records : list pyval) (all_keys : gset string)
    (filename : string) (fs : filesystem) :
  collect_keys (r :: records) ∅ = Ok all_keys ->
  save_to_csv (PyList (r :: records)) filename fs
  = match write_csv (sorted_keys all_keys) (r :: records) filename fs with
    | (Ok _, fs') => (Ok true, fs')
    | (Raise _, fs') => (Ok false, fs')
    end.
Proof.
  intros Hc. unfold save_to_csv.
  cbn [py_truthy length Nat.eqb negb py_iter mbind result_bind]. rewrite Hc.
  reflexivity.
Qed.

Lemma records_wrong_fields (records : list pyval) (all_keys : gset string) :
  Forall is_record records ->
  collect_keys records ∅ = Ok all_keys ->
  forall items, PyDict items ∈ records -> wrong_fields (sorted_keys all_keys) items = [].
Proof.
  intros Hrec Hc items Hin.
  destruct (collect_keys_spec records ∅ Hrec) as (all_keys' & Hc' & Hk).
  assert (all_keys' = all_keys) as -> by congruence.
  apply wrong_fields_nil. intros k Hkin. apply sorted_keys_elem_of, Hk.
  right. by exists items.
Qed.

(** X7.  For a non-empty list of records and a path without I/O fault,
    [save_to_csv] returns [True] and the file holds exactly the header line
    of the sorted keys followed by one line per record, in the order of the
    list; whatever the file held before is gone. *)
Theorem save_to_csv_content (records : list pyval) (filename : string) (fs : filesystem) :
  records <> [] ->
  Forall is_record records ->
  fault fs filename = NoFault ->
  exists all_keys : gset string,
    collect_keys records ∅ = Ok all_keys
    /\ save_to_csv (PyList records) filename fs
       = (Ok true,
          {| files := <[filename := csv_text (sorted_keys all_keys) records]> (files fs);
             fault := fault fs |}).
Proof.
  intros Hne Hrec Hf.
  destruct (collect_keys_spec records ∅ Hrec) as (all_keys & Hc & _).
  exists all_keys. split; [exact Hc|].
  destruct records as [|r records]; [congruence|].
  rewrite (save_to_csv_unfold r records all_keys filename fs Hc).
  rewrite write_csv_content; [reflexivity | | exact Hrec | exact Hf].
  apply records_wrong_fields; assumption.
Qed.

(** X8.  When the file cannot be opened, [save_to_csv] of a non-empty list
    of records returns [False] and the file system is as before: the error
    is swallowed and nothing is created. *)
Theorem save_to_csv_open_fails (records : list pyval) (filename : string) (fs : filesystem) :
  records <> [] ->
  Forall is_record records ->
  fault fs filename = OpenFails ->
  save_to_csv (PyList records) filename fs = (Ok false, fs).
Proof.
  intros Hne Hrec Hf.
  destruct (collect_keys_spec records ∅ Hrec) as (all_keys & Hc & _).
  destruct records as [|r records]; [congruence|].
  rewrite (save_to_csv_unfold r records all_keys filename fs Hc).
  unfold write_csv, fs_open_w. rewrite Hf. reflexivity.
Qed.

(** X9.  On a list, [save_to_csv] raises exactly when an element is not a
    [dict]: a list of records always gives a boolean, whatever the I/O
    faults; a list with an element that is not a [dict] makes
    [AttributeError] escape (the keys are collected before the [try] block)
    and the file system is untouched. *)
Theorem save_to_csv_raises (records : list pyval) (filename : string) (fs : filesystem) :
  (Forall is_record records ->
     exists b fs', save_to_csv (PyList records) filename fs = (Ok b, fs'))
  /\ (Exists (fun r => ~ is_record r) records ->
      save_to_csv (PyList records) filename fs = (Raise AttributeError, fs)).
Proof.
  split.
  - intros Hrec. destruct records as [|r records]; [by exists false, fs|].
    destruct (collect_keys_spec (r :: records) ∅ Hrec) as (all_keys & Hc & _).
    rewrite (save_to_csv_unfold r records all_keys filename fs Hc).
    destruct (write_csv _ _ _ _) as [[[]|e] fs']; by eexists _, _.
  - intros Hex. destruct records as [|r records]; [inversion Hex|].
    unfold save_to_csv.
    cbn [py_truthy length Nat.eqb negb py_iter mbind result_bind].
    rewrite (collect_keys_non_record _ _ Hex). reflexivity.
Qed.

End ExporterMore.

Lemma save_to_csv_content_witness :
  exists all_keys : gset string,
    collect_keys [PyDict [("a", PyStr "1"); ("b", PyStr "2")]; PyDict [("a", PyStr "3")]] ∅
      = Ok all_keys
    /\ save_to_csv (H := example_builtins)
         (PyList [PyDict [("a", PyStr "1"); ("b", PyStr "2")]; PyDict [("a", PyStr "3")]])
         OUTPUT_FILE stale_fs
       = (Ok true,
          {| files := <[OUTPUT_FILE :=
                          csv_text (H := example_builtins) (sorted_keys all_keys)
                            [PyDict [("a", PyStr "1"); ("b", PyStr "2")];
                             PyDict [("a", PyStr "3")]]]> (files stale_fs);
             fault := fault stale_fs |}).
Proof.
  apply (save_to_csv_content (H := example_builtins)
           [PyDict [("a", PyStr "1"); ("b", PyStr "2")]; PyDict [("a", PyStr "3")]]
           OUTPUT_FILE stale_fs).
  - discriminate.
  - repeat constructor.
  - reflexivity.
Defined.

Lemma save_to_csv_open_fails_witness :
  save_to_csv (H := example_builtins)
    (PyList [PyDict [("a", PyStr "1"); ("b", PyStr "2")]; PyDict [("a", PyStr "3")]])
    OUTPUT_FILE locked_fs
  = (Ok false, locked_fs).
Proof.
  apply (save_to_csv_open_fails (H := example_builtins)
           [PyDict [("a", PyStr "1"); ("b", PyStr "2")]; PyDict [("a", PyStr "3")]]
           OUTPUT_FILE locked_fs).
  - discriminate.
  - repeat constructor.
  - reflexivity.
Defined.

Lemma save_to_csv_raises_witness :
  (exists b fs',
     save_to_csv (H := example_builtins) (PyList [PyDict [("a", PyStr "3")]])
       OUTPUT_FILE empty_fs = (Ok b, fs'))
  /\ save_to_csv (H := example_builtins) (PyList [PyDict [("a", PyStr "3")]; PyStr "error"])
       OUTPUT_FILE empty_fs
     = (Raise AttributeError, empty_fs).
Proof.
  split.
  - apply (proj1 (save_to_csv_raises (H := example_builtins) [PyDict [("a", PyStr "3")]]
                    OUTPUT_FILE empty_fs)).
    repeat constructor.
  - apply (proj2 (save_to_csv_raises (H := example_builtins)
                    [PyDict [("a", PyStr "3")]; PyStr "error"] OUTPUT_FILE empty_fs)).
    apply Exists_cons_tl, Exists_cons_hd. intros Hr. exact Hr.
Defined.

(** ** Orchestration: the whole of [main] *)

Section MainMore.
Context `{Builtins}.

Lemma query_with_high_limit_keeps (districts : list string) (start_date end_date : string)
    (limit : Z) (s : session) (st : Z) (data : pyval) (n : Z) :
  replies s (length (sent s)) = HttpResponse st (Some data) ->
  ~ (400 <= st < 600) ->
  py_len data = Ok n ->
  query_with_high_limit districts start_date end_date limit s
  = (data, log_request s
             (bulk_request (build_where_clause districts start_date end_date) limit)).
Proof.
  intros Hr Hst Hn. unfold query_with_high_limit, session_get. rewrite Hr. simpl.
  rewrite raise_for_status_pass by exact Hst. simpl.
  unfold response_json. simpl. rewrite Hn. reflexivity.
Qed.

Lemma main_retrieve_keeps (fuel : nat) (s s1 : session) (data : pyval) (n : Z) :
  query_with_high_limit DISTRICTS START_DATE END_DATE 50000 s = (data, s1) ->
  py_truthy data = true ->
  py_len data = Ok n ->
  n <> 50000 ->
  main_retrieve fuel s = Some (Ok data, s1).
Proof.
  intros Hq Ht Hn Hne. unfold main_retrieve. rewrite Hq, Ht, Hn. simpl.
  destruct (n =? 50000) eqn:E; [lia|reflexivity].
Qed.

(** X10.  Whatever the replies, the retrieval part of [main] raises
    nothing: the unguarded [len(data)] is always applied to a value that has
    a length, and the data [main] goes on with has a length too. *)
Theorem main_retrieve_never_raises (fuel : nat) (s s' : session) (r : result pyval) :
  main_retrieve fuel s = Some (r, s') ->
  exists data n, r = Ok data /\ py_len data = Ok n.
Proof.
  unfold main_retrieve.
  destruct (query_with_high_limit DISTRICTS START_DATE END_DATE 50000 s) as [bulk s1] eqn:Hq.
  destruct (query_with_high_limit_has_len DISTRICTS START_DATE END_DATE 50000 s) as [n Hn].
  rewrite Hq in Hn. simpl in Hn. rewrite Hn. simpl.
  assert (Hpag : ('(records, s2) ←
                     query_with_pagination fuel DISTRICTS START_DATE END_DATE 1000 s1;
                  Some (Ok (PyList records), s2)) = Some (r, s') ->
                 exists data n, r = Ok data /\ py_len data = Ok n).
  { destruct (query_with_pagination _ _ _ _ _ _) as [[records s2]|]; simpl; [|discriminate].
    intros [= <- <-]. by eexists _, _. }
  destruct (py_truthy bulk); simpl; [|exact Hpag].
  destruct (n =? 50000); [exact Hpag|].
  intros [= <- <-]. by exists bulk, n.
Qed.

(** X11.  When the bulk reply is a non-empty list of records with a length
    other than 50000 and the output file has no I/O fault, [main] ends
    normally for any fuel, having sent the bulk request only, and the output
    file holds the export of exactly these records. *)
Theorem main_exports_bulk (s : session) (fs : filesystem) (st : Z) (records : list pyval) :
  replies s (length (sent s)) = HttpResponse st (Some (PyList records)) ->
  ~ (400 <= st < 600) ->
  records <> [] ->
  Z.of_nat (length records) <> 50000 ->
  Forall is_record records ->
  fault fs OUTPUT_FILE = NoFault ->
  exists all_keys : gset string,
    collect_keys records ∅ = Ok all_keys
    /\ forall fuel,
         main fuel s fs
         = Some (Ok tt,
                 log_request s (bulk_request WHERE 50000),
                 {| files := <[OUTPUT_FILE := csv_text (sorted_keys all_keys) records]>
                               (files fs);
                    fault := fault fs |}).
Proof.
  intros Hr Hst Hne Hlen Hrec Hf.
  destruct (collect_keys_spec records ∅ Hrec) as (all_keys & Hc & _).
  exists all_keys. split; [exact Hc|]. intros fuel. unfold main.
  rewrite (main_retrieve_keeps fuel s (log_request s (bulk_request WHERE 50000))
             (PyList records) (Z.of_nat (length records))).
  - destruct records as [|r records]; [congruence|].
    cbn [mbind option_bind py_truthy length Nat.eqb negb].
    rewrite (save_to_csv_unfold r records all_keys OUTPUT_FILE fs Hc).
    rewrite write_csv_content; [reflexivity | | exact Hrec | exact Hf].
    apply records_wrong_fields; assumption.
  - exact (query_with_high_limit_keeps DISTRICTS START_DATE END_DATE 50000 s st
             (PyList records) _ Hr Hst eq_refl).
  - destruct records; [congruence|reflexivity].
  - reflexivity.
  - exact Hlen.
Qed.

(** X12.  When the bulk query gives nothing and the count is 0 (both
    happen when the requests fail), [main] ends normally for any fuel
    without a page request and without touching the file system. *)
Theorem main_nothing_retrieved (fuel : nat) (s s1 : session) (fs : filesystem) :
  query_with_high_limit DISTRICTS START_DATE END_DATE 50000 s = (PyList [], s1) ->
  fst (get_total_count WHERE s1) = 0 ->
  main fuel s fs = Some (Ok tt, log_request s1 (count_request WHERE), fs).
Proof.
  intros Hq H0. unfold main, main_retrieve. rewrite Hq. simpl.
  unfold query_with_pagination. fold WHERE.
  pose proof (get_total_count_session WHERE s1) as Hs.
  destruct (get_total_count WHERE s1) as [total s2]. simpl in H0, Hs. subst.
  reflexivity.
Qed.

(** X13.  When the bulk reply is a non-empty JSON object (not a list), with
    a status that passes and a length other than 50000, [main] takes the
    object for data, [save_to_csv] iterates over its keys, and
    [AttributeError] ends the program: nothing is written. *)
Theorem main_json_object_raises (fuel : nat) (s : session) (fs : filesystem) (st : Z)
    (items : list (string * pyval)) :
  replies s (length (sent s)) = HttpResponse st (Some (PyDict items)) ->
  ~ (400 <= st < 600) ->
  items <> [] ->
  Z.of_nat (length items) <> 50000 ->
  main fuel s fs
  = Some (Raise AttributeError, log_request s (bulk_request WHERE 50000), fs).
Proof.
  intros Hr Hst Hne Hlen. unfold main.
  rewrite (main_retrieve_keeps fuel s (log_request s (bulk_request WHERE 50000))
             (PyDict items) (Z.of_nat (length items))).
  - destruct items as [|[k v] items]; [congruence|]. reflexivity.
  - exact (query_with_high_limit_keeps DISTRICTS START_DATE END_DATE 50000 s st
             (PyDict items) _ Hr Hst eq_refl).
  - destruct items; [congruence|reflexivity].
  - reflexivity.
  - exact Hlen.
Qed.

Lemma main_retrieve_returns (s : session) :
  exists fuel0 out, forall fuel, (fuel0 <= fuel)%nat -> main_retrieve fuel s = Some out.
Proof.
  unfold main_retrieve.
  destruct (query_with_high_limit DISTRICTS START_DATE END_DATE 50000 s) as [bulk s1].
  destruct (query_with_pagination_returns DISTRICTS START_DATE END_DATE 1000 s1 ltac:(lia))
    as (fuel0 & [records s2] & Hret).
  destruct (if negb (py_truthy bulk) then Ok true else n ← py_len bulk; Ok (n =? 50000))
    as [[|]|e].
  - exists fuel0, (Ok (PyList records), s2). intros fuel Hfuel.
    rewrite (Hret fuel Hfuel). reflexivity.
  - exists 0%nat, (Ok bulk, s1). intros fuel _. reflexivity.
  - exists 0%nat, (Raise e, s1). intros fuel _. reflexivity.
Qed.

(** X14.  [main] terminates in every environment: for every session and
    file system there is an amount of fuel from which on the run gives one
    and the same outcome. *)
Theorem main_terminates (s : session) (fs : filesystem) :
  exists fuel0 out, forall fuel, (fuel0 <= fuel)%nat -> main fuel s fs = Some out.
Proof.
  destruct (main_retrieve_returns s) as (fuel0 & [got s'] & Hret).
  exists fuel0.
  destruct got as [data|e].
  - destruct (py_truthy data) eqn:Ht.
    + destruct (save_to_csv data OUTPUT_FILE fs) as [[b|e] fs'] eqn:Hsave.
      * exists (Ok tt, s', fs'). intros fuel Hfuel. unfold main.
        rewrite (Hret fuel Hfuel). simpl. rewrite Ht, Hsave. reflexivity.
      * exists (Raise e, s', fs'). intros fuel Hfuel. unfold main.
        rewrite (Hret fuel Hfuel). simpl. rewrite Ht, Hsave. reflexivity.
    + exists (Ok tt, s', fs). intros fuel Hfuel. unfold main.
      rewrite (Hret fuel Hfuel). simpl. rewrite Ht. reflexivity.
  - exists (Raise e, s', fs). intros fuel Hfuel. unfold main.
    rewrite (Hret fuel Hfuel). reflexivity.
Qed.

End MainMore.

Lemma main_retrieve_never_raises_witness :
  exists data n, Ok sparse_records = Ok data /\ py_len data = Ok n.
Proof.
  apply (main_retrieve_never_raises (H := example_builtins) 3 bulk_sparse
           (log_request bulk_sparse (bulk_request WHERE 50000)) (Ok sparse_records)).
  reflexivity.
Defined.

Lemma main_exports_bulk_witness :
  exists all_keys : gset string,
    collect_keys [PyDict [("a", PyStr "1"); ("b", PyStr "2")]; PyDict [("a", PyStr "3")]] ∅
      = Ok all_keys
    /\ forall fuel,
         main (H := example_builtins) fuel bulk_sparse stale_fs
         = Some (Ok tt,
                 log_request bulk_sparse (bulk_request WHERE 50000),
                 {| files := <[OUTPUT_FILE :=
                                 csv_text (H := example_builtins) (sorted_keys all_keys)
                                   [PyDict [("a", PyStr "1"); ("b", PyStr "2")];
                                    PyDict [("a", PyStr "3")]]]> (files stale_fs);
                    fault := fault stale_fs |}).
Proof.
  apply (main_exports_bulk (H := example_builtins) bulk_sparse stale_fs 200
           [PyDict [("a", PyStr "1"); ("b", PyStr "2")]; PyDict [("a", PyStr "3")]]).
  - reflexivity.
  - lia.
  - discriminate.
  - simpl. lia.
  - repeat constructor.
  - reflexivity.
Defined.

Lemma main_nothing_retrieved_witness :
  main (H := example_builtins) 0 network_down stale_fs
  = Some (Ok tt,
          log_request (log_request network_down (bulk_request WHERE 50000))
            (count_request WHERE),
          stale_fs).
Proof.
  apply (main_nothing_retrieved (H := example_builtins) 0 network_down
           (log_request network_down (bulk_request WHERE 50000)) stale_fs);
    reflexivity.
Defined.

Lemma main_json_object_raises_witness :
  main (H := example_builtins) 0 bulk_error_object empty_fs
  = Some (Raise AttributeError,
          log_request bulk_error_object (bulk_request WHERE 50000), empty_fs).
Proof.
  apply (main_json_object_raises (H := example_builtins) 0 bulk_error_object empty_fs 200
           [("error", PyBool true); ("message", PyStr "bad query")]).
  - reflexivity.
  - lia.
  - discriminate.
  - simpl. lia.
Defined.

(** ** Query builder: what the expression determines *)

Lemma quoted_literals_build (districts : list string) (start_date end_date : string) :
  districts <> [] ->
  Forall (fun d => quote_free d = true) districts ->
  quote_free start_date = true ->
  quote_free end_date = true ->
  quoted_literals (build_where_clause districts start_date end_date)
  = districts ++ [start_date; end_date].
Proof.
  intros Hne Hq Hs He. destruct districts as [|c cs]; [congruence|].
  rewrite build_where_clause_shape. unfold quoted_literals.
  rewrite (split_on_quote_cons "rpt_dist_no IN (") by reflexivity.
  rewrite split_joined by exact Hq.
  rewrite (split_on_quote_cons ") AND date_occ >= ") by reflexivity.
  rewrite (split_on_quote_cons start_date) by exact Hs.
  rewrite (split_on_quote_cons " AND date_occ <= ") by reflexivity.
  rewrite (split_on_quote_cons end_date) by exact He.
  rewrite literals_interleaved. reflexivity.
Qed.

(** X15.  On non-empty lists of codes, with codes and dates free of quote
    characters, [build_where_clause] loses nothing: two filters with the
    same expression have the same codes in the same order and the same
    dates. *)
Theorem build_where_clause_injective (districts districts' : list string)
    (start_date end_date start_date' end_date' : string) :
  districts <> [] ->
  districts' <> [] ->
  Forall (fun d => quote_free d = true) districts ->
  Forall (fun d => quote_free d = true) districts' ->
  quote_free start_date = true ->
  quote_free end_date = true ->
  quote_free start_date' = true ->
  quote_free end_date' = true ->
  build_where_clause districts start_date end_date
    = build_where_clause districts' start_date' end_date' ->
  districts = districts' /\ start_date = start_date' /\ end_date = end_date'.
Proof.
  intros Hne Hne' Hq Hq' Hs He Hs' He' Heq.
  pose proof (quoted_literals_build districts start_date end_date Hne Hq Hs He) as L.
  pose proof (quoted_literals_build districts' start_date' end_date' Hne' Hq' Hs' He') as L'.
  rewrite Heq, L' in L.
  change (districts' ++ [start_date'; end_date'])
    with (districts' ++ [start_date'] ++ [end_date']) in L.
  change (districts ++ [start_date; end_date])
    with (districts ++ [start_date] ++ [end_date]) in L.
  rewrite !app_assoc in L.
  apply app_inj_tail in L as [L ->]. apply app_inj_tail in L as [-> ->].
  repeat split.
Qed.

Lemma build_where_clause_injective_witness :
  DISTRICTS = DISTRICTS /\ START_DATE = START_DATE /\ END_DATE = END_DATE.
Proof.
  apply (build_where_clause_injective DISTRICTS DISTRICTS START_DATE END_DATE
           START_DATE END_DATE);
    try reflexivity; try discriminate; repeat constructor.
Defined.

(** X16.  Nothing is escaped: a code that contains the text [', '] gives
    the same expression as the two codes on either side of it, and the empty
    list of codes gives the expression of the single empty code. *)
Theorem build_where_clause_no_escaping (a b : string) (rest : list string)
    (start_date end_date : string) :
  build_where_clause ((a +:+ "', '" +:+ b) :: rest) start_date end_date
    = build_where_clause (a :: b :: rest) start_date end_date
  /\ build_where_clause [] start_date end_date
     = build_where_clause [EmptyString] start_date end_date.
Proof.
  split; [|reflexivity].
  unfold build_where_clause. f_equal. f_equal.
  destruct rest as [|r rest].
  - reflexivity.
  - change (String.concat "', '" ((a +:+ "', '" +:+ b) :: r :: rest))
      with ((a +:+ "', '" +:+ b) +:+ "', '" +:+ String.concat "', '" (r :: rest)).
    change (String.concat "', '" (a :: b :: r :: rest))
      with (a +:+ "', '" +:+ b +:+ "', '" +:+ String.concat "', '" (r :: rest)).
    rewrite !append_assoc. reflexivity.
Qed.
